(** * Spell card processor: model of [process_spells.py] and its properties

    The script reads a PDF with one spell card per page.  For each page it
    resolves the form fields [Name_], [PName_], [School_] and [Level_],
    decides whether the page is skipped or accepted, writes three artifacts
    for an accepted page, asks the operator for the classes and finally
    splices the accepted records into [data/spells.js].

    Conventions of the model.
    - A Python [str] is a [string]; a character is a code point below 256.
      [isspace] and [lower] are Python's on that range.
    - A Python value that may be [None] is an [option]; the variable
      [level], which holds an [int], a [str] or [None] at different times,
      is a [pyval].
    - An uncaught exception is the [Raise] result; it ends the run.
    - The renderer, the image encoder, the file system and the input of
      the terminal are outside the repository.  [process_page_fs] takes two
      oracles for them: whether the k-th artifact of the run is rendered
      and written at its path, and the line typed at the k-th prompt, absent
      at the end of the input.  [process_page] is the same loop for a run
      in which every artifact is saved and every prompt is answered (the
      k-th answer is [operator k]).  Printing to the terminal succeeds.
    - [int] refuses a numeral of more than 4300 digits and [str] an integer
      of more than 4300 digits, the interpreter's default limit.
      [PyStr.str_of_int] is [str] on the integers within the limit, which
      [printable] names.
    - [read_text] and [write_text] translate line ends; a file is the text
      stored in it, before that translation. *)

From Stdlib Require Import ZArith List Bool Ascii String Lia DecimalString.
From Stdlib Require DecimalPos.
Import ListNotations.

Open Scope string_scope.

(** ** Python string primitives *)

Module PyStr.

(** [c.isspace()] on code points below 256. *)
Definition isspace (c : ascii) : bool :=
  let n := nat_of_ascii c in
  (((9 <=? n) && (n <=? 13)) || ((28 <=? n) && (n <=? 32))
   || (n =? 133) || (n =? 160))%nat.

(** [c.lower()] on code points below 256: the ASCII capitals and the
    Latin-1 capitals 0xC0..0xDE other than the multiplication sign. *)
Definition lower_char (c : ascii) : ascii :=
  let n := nat_of_ascii c in
  if (((65 <=? n) && (n <=? 90))
      || ((192 <=? n) && (n <=? 222) && negb (n =? 215)))%nat
  then ascii_of_nat (n + 32)%nat else c.

Definition is_lower (c : ascii) : bool :=
  let n := nat_of_ascii c in ((97 <=? n) && (n <=? 122))%nat.

Definition is_upper (c : ascii) : bool :=
  let n := nat_of_ascii c in ((65 <=? n) && (n <=? 90))%nat.

Definition is_digit (c : ascii) : bool :=
  let n := nat_of_ascii c in ((48 <=? n) && (n <=? 57))%nat.

Definition hyphen : ascii := "-"%char.

Fixpoint dropwhile (f : ascii -> bool) (l : list ascii) : list ascii :=
  match l with
  | [] => []
  | c :: l' => if f c then dropwhile f l' else l
  end.

Definition lstrip_chars (l : list ascii) : list ascii := dropwhile isspace l.

Definition rstrip_chars (l : list ascii) : list ascii :=
  rev (dropwhile isspace (rev l)).

Definition strip_chars (l : list ascii) : list ascii :=
  rstrip_chars (lstrip_chars l).

(** [s.strip()] *)
Definition strip (s : string) : string :=
  string_of_list_ascii (strip_chars (list_ascii_of_string s)).

(** [s.startswith(prefix)] *)
Definition startswith (s prefix : string) : bool := String.prefix prefix s.

(** [sep.join(parts)] *)
Definition join (sep : string) (parts : list string) : string :=
  String.concat sep parts.

(** [s[:n]] and [s[n:]] for [0 <= n]. *)
Fixpoint slice_to (n : nat) (s : string) : string :=
  match n, s with
  | S n', String c s' => String c (slice_to n' s')
  | _, _ => EmptyString
  end.

Fixpoint slice_from (n : nat) (s : string) : string :=
  match n, s with
  | S n', String _ s' => slice_from n' s'
  | _, _ => s
  end.

(** [s.rfind(sub)]: the highest index at which [sub] occurs, or [-1].
    [i] is the index of the first character of [s] in the whole string. *)
Fixpoint rfind_from (sub s : string) (i : Z) : Z :=
  match s with
  | EmptyString => if String.prefix sub EmptyString then i else (-1)%Z
  | String _ s' =>
      let r := rfind_from sub s' (i + 1)%Z in
      if (r =? -1)%Z
      then (if String.prefix sub s then i else (-1)%Z)
      else r
  end.

Definition rfind (s sub : string) : Z := rfind_from sub s 0%Z.

(** [str(n)] for an [int] of at most 4300 digits; [str] raises on the
    others. *)
Definition str_of_int (n : Z) : string := NilZero.string_of_int (Z.to_int n).

End PyStr.

(** ** The slug normalizer *)

(** [re.sub(r"[^a-z0-9\s-]", "", s)]: the characters the class keeps. *)
Definition slug_keep (c : ascii) : bool :=
  PyStr.is_lower c || PyStr.is_digit c || PyStr.isspace c
  || Ascii.eqb c PyStr.hyphen.

(** [re.sub(r"[\s]+", "-", s)]: every maximal run of whitespace becomes one
    hyphen.  [in_run] tells that the previous character was whitespace. *)
Fixpoint sub_ws_runs (in_run : bool) (l : list ascii) : list ascii :=
  match l with
  | [] => []
  | c :: l' =>
      if PyStr.isspace c
      then (if in_run then sub_ws_runs true l'
            else PyStr.hyphen :: sub_ws_runs true l')
      else c :: sub_ws_runs false l'
  end.

Definition slugify_chars (l : list ascii) : list ascii :=
  let s := map PyStr.lower_char (PyStr.strip_chars l) in
  let s := filter slug_keep s in
  sub_ws_runs false s.

Definition slugify (name : string) : string :=
  string_of_list_ascii (slugify_chars (list_ascii_of_string name)).

(** ** Python values, exceptions and [int] *)

Inductive pyval : Type :=
| VNone
| VInt (z : Z)
| VStr (s : string).

(** [SaveError] stands for what the rendering and imaging libraries raise
    when an artifact cannot be rendered or written; [EOFError] is raised by
    [input] at the end of the input. *)
Inductive exn : Type := TypeError | ValueError | SaveError | EOFError.

Inductive result (A : Type) : Type :=
| Ok (a : A)
| Raise (e : exn).

Arguments Ok {A} a.
Arguments Raise {A} e.

Definition bind {A B : Type} (r : result A) (k : A -> result B) : result B :=
  match r with
  | Ok a => k a
  | Raise e => Raise e
  end.

Notation "x <- r ;; k" := (bind r (fun x => k))
  (at level 61, r at next level, right associativity).

(** Truth value of a [str] or [None]. *)
Definition truthy (o : option string) : bool :=
  match o with
  | None => false
  | Some s => negb (String.eqb s EmptyString)
  end.

(** [a or b] on values that are a [str] or [None]. *)
Definition py_or (a b : option string) : option string :=
  if truthy a then a else b.

(** [a or b] when [b] is a [str]: the result is a [str]. *)
Definition str_or (a : option string) (b : string) : string :=
  match a with
  | Some s => if String.eqb s EmptyString then b else s
  | None => b
  end.

(** What an f-string prints for a [str] or [None]. *)
Definition fmt (o : option string) : string :=
  match o with
  | Some s => s
  | None => "None"
  end.

Definition of_field (o : option string) : pyval :=
  match o with
  | Some s => VStr s
  | None => VNone
  end.

Definition digit_value (c : ascii) : Z := Z.of_nat (nat_of_ascii c) - 48.

(** Where the scan of a numeral stands: nothing read yet, a digit read last,
    or an underscore read last. *)
Inductive scan_pos : Type := AtStart | AfterDigit | AfterUnderscore.

(** Digits with single underscores between them, read most significant
    first; [acc] is the value read so far. *)
Fixpoint scan_digits (pos : scan_pos) (acc : Z) (l : list ascii) : option Z :=
  match l with
  | [] => match pos with AfterDigit => Some acc | _ => None end
  | c :: l' =>
      if PyStr.is_digit c
      then scan_digits AfterDigit (10 * acc + digit_value c) l'
      else if Ascii.eqb c "_"%char
      then match pos with
           | AfterDigit => scan_digits AfterUnderscore acc l'
           | _ => None
           end
      else None
  end.

(** The whitespace [int] drops around a numeral: Python's whitespace but
    for the separators 0x1C to 0x1F, which [int] rejects. *)
Definition int_space (c : ascii) : bool :=
  let n := nat_of_ascii c in
  PyStr.isspace c && negb ((28 <=? n) && (n <=? 31))%nat.

Definition int_strip (l : list ascii) : list ascii :=
  rev (PyStr.dropwhile int_space (rev (PyStr.dropwhile int_space l))).

(** The interpreter's default limit on the number of digits of a numeral that
    [int] reads and [str] prints ([sys.int_max_str_digits]). *)
Definition int_max_str_digits : Z := 4300.

Definition count_digits (l : list ascii) : Z :=
  Z.of_nat (List.length (filter PyStr.is_digit l)).

(** An optional sign and the digits. *)
Definition int_body (body : list ascii) : option Z :=
  match body with
  | c :: r =>
      if Ascii.eqb c "+"%char then scan_digits AtStart 0 r
      else if Ascii.eqb c "-"%char
      then option_map Z.opp (scan_digits AtStart 0 r)
      else scan_digits AtStart 0 (c :: r)
  | [] => None
  end.

(** [int(s)] for a [str]: surrounding whitespace is dropped, a numeral of
    more than [int_max_str_digits] digits is refused, then an optional sign
    and the digits are read; [None] stands for [ValueError]. *)
Definition int_of_chars (l : list ascii) : option Z :=
  let body := int_strip l in
  if (int_max_str_digits <? count_digits body)%Z then None
  else int_body body.

Definition int_of_str (s : string) : option Z :=
  int_of_chars (list_ascii_of_string s).

(** [int(v)] *)
Definition py_int (v : pyval) : result Z :=
  match v with
  | VInt z => Ok z
  | VNone => Raise TypeError
  | VStr s =>
      match int_of_str s with
      | Some z => Ok z
      | None => Raise ValueError
      end
  end.

(** ** Form fields of a page *)

(** The objects found under [/T] and [/V]: text (a [str]) or a number. *)
Inductive pdf_obj : Type :=
| TextString (s : string)
| NumberObject (n : Z).

Definition obj_truthy (o : pdf_obj) : bool :=
  match o with
  | TextString s => negb (String.eqb s EmptyString)
  | NumberObject n => negb (n =? 0)%Z
  end.

(** [str(o)] *)
Definition obj_str (o : pdf_obj) : string :=
  match o with
  | TextString s => s
  | NumberObject n => PyStr.str_of_int n
  end.

(** A parent field: its [/T] and [/V] entries, each possibly missing. *)
Record field : Type := mkField {
  f_T : option pdf_obj;
  f_V : option pdf_obj
}.

(** An annotation: its [/T], [/V] and [/Parent] entries.  A parent is a
    reference to another object and counts as true whenever present. *)
Record annot : Type := mkAnnot {
  a_T : option pdf_obj;
  a_V : option pdf_obj;
  a_Parent : option field
}.

(** A page: what [page.get("/Annots")] gives. *)
Record page : Type := mkPage {
  Annots : option (list annot)
}.

(** [field_name] after lines 67-70: the annotation's own [/T] (the empty
    string when missing), or the parent's [/T] when that is false and a
    parent exists. *)
Definition field_name (a : annot) : option pdf_obj :=
  let own := match a_T a with Some o => o | None => TextString EmptyString end in
  if negb (obj_truthy own)
  then match a_Parent a with
       | Some parent => f_T parent
       | None => Some own
       end
  else Some own.

(** Line 71: [isinstance(field_name, str) and field_name.startswith(prefix)] *)
Definition name_matches (a : annot) (prefix : string) : bool :=
  match field_name a with
  | Some (TextString s) => PyStr.startswith s prefix
  | _ => false
  end.

(** [val] after lines 73-76: the annotation's own [/V], or the parent's
    [/V] when that is missing or false and a parent exists. *)
Definition field_value (a : annot) : option pdf_obj :=
  let val := a_V a in
  let falsy := match val with Some o => negb (obj_truthy o) | None => true end in
  if falsy
  then match a_Parent a with
       | Some parent => f_V parent
       | None => val
       end
  else val.

(** The loop of lines 65-79. *)
Fixpoint scan_fields (fields : list annot) (prefix : string) : option string :=
  match fields with
  | [] => None
  | a :: rest =>
      if name_matches a prefix
      then match field_value a with
           | Some val => Some (PyStr.strip (obj_str val))
           | None => scan_fields rest prefix
           end
      else scan_fields rest prefix
  end.

Definition get_form_field (p : page) (prefix : string) : option string :=
  match Annots p with
  | None => None
  | Some [] => None
  | Some fields => scan_fields fields prefix
  end.

(** ** Configuration *)

Definition SPELLS_PDF_DIR : string := "spells".
Definition IMAGES_DIR : string := "images".
Definition HIRES_DIR : string := "high_res_images".

Definition CLASSES : list string :=
  [ "Barbarian"; "Bard"; "Cleric"; "Druid"; "Fighter";
    "Monk"; "Paladin"; "Ranger"; "Rogue"; "Sorcerer";
    "Warlock"; "Wizard"; "Artificer" ].

(** ** The class prompt *)

(** [re.findall(r"\d+", raw)]: the maximal runs of digits, left to right.
    [cur] is the run being read, last digit first. *)
Fixpoint findall_digits (cur : list ascii) (l : list ascii) : list (list ascii) :=
  match l with
  | [] => match cur with [] => [] | _ => [rev cur] end
  | c :: l' =>
      if PyStr.is_digit c then findall_digits (c :: cur) l'
      else match cur with
           | [] => findall_digits [] l'
           | _ => rev cur :: findall_digits [] l'
           end
  end.

(** [int(idx_str)] for a run of at most 4300 digits, which has no sign or
    underscore; [int] raises on a longer run, see [answer_too_long]. *)
Definition int_of_digits (l : list ascii) : Z :=
  fold_left (fun acc c => 10 * acc + digit_value c)%Z l 0%Z.

(** The loop of lines 93-96. *)
Fixpoint select_classes (indices : list (list ascii)) : list string :=
  match indices with
  | [] => []
  | idx_str :: rest =>
      let idx := (int_of_digits idx_str - 1)%Z in
      if ((0 <=? idx) && (idx <? Z.of_nat (List.length CLASSES)))%Z
      then nth (Z.to_nat idx) CLASSES EmptyString :: select_classes rest
      else select_classes rest
  end.

(** [ask_classes], given the line the operator typed, when line 94 does not
    raise; [ask_classes_fs] has the failures of [input] and of line 94. *)
Definition ask_classes (typed : string) : list string :=
  let raw := PyStr.strip typed in
  if String.eqb raw EmptyString then []
  else select_classes (findall_digits [] (list_ascii_of_string raw)).

(** ** Records and the page loop *)

(** One dictionary appended to [entries].  [e_name] holds the value of the
    variable [name], a [str] or [None]. *)
Record entry : Type := mkEntry {
  e_name : option string;
  e_level : Z;
  e_school : string;
  e_classes : list string;
  e_image : string;
  e_pdf : string
}.

(** ** The collection appender *)

Definition dquote : string := String "034"%char EmptyString.
Definition newline : string := String "010"%char EmptyString.

(** The text of one record, lines 116-124. *)
Definition js_line (e : entry) : string :=
  let classes_str :=
    PyStr.join ", " (map (fun c => dquote ++ c ++ dquote) (e_classes e)) in
  "  { name: " ++ dquote ++ fmt (e_name e) ++ dquote ++ ", "
  ++ "level: " ++ PyStr.str_of_int (e_level e) ++ ", "
  ++ "school: " ++ dquote ++ e_school e ++ dquote ++ ", "
  ++ "classes: [" ++ classes_str ++ "], "
  ++ "image: " ++ dquote ++ e_image e ++ dquote ++ ", "
  ++ "pdf: " ++ dquote ++ e_pdf e ++ dquote ++ " },".

(** Line 127. *)
Definition insert_text (entries : list entry) : string :=
  PyStr.join newline (map js_line entries) ++ newline.

(** The text written when [data/spells.js] does not exist, line 109. *)
Definition empty_collection : string :=
  "const SPELLS = [" ++ newline ++ "];" ++ newline.

(** What [read_text] makes of the text of a file: every carriage return
    followed by a line feed, and every other carriage return, becomes one
    line feed. *)
Fixpoint universal_newlines (s : string) : string :=
  match s with
  | EmptyString => EmptyString
  | String c rest =>
      if Ascii.eqb c "013"%char
      then String "010"%char
             match rest with
             | String c' rest' =>
                 if Ascii.eqb c' "010"%char then universal_newlines rest'
                 else universal_newlines rest
             | EmptyString => EmptyString
             end
      else String c (universal_newlines rest)
  end.

(** What [write_text] stores for a text on a platform whose line separator
    is [linesep]: every line feed becomes [linesep]. *)
Fixpoint write_newlines (linesep : string) (s : string) : string :=
  match s with
  | EmptyString => EmptyString
  | String c rest =>
      if Ascii.eqb c "010"%char then linesep ++ write_newlines linesep rest
      else String c (write_newlines linesep rest)
  end.

(** What the appender tells the operator. *)
Inductive message : Type :=
| NotFoundCreating
| CouldNotFindMarker
| Added (n : nat).

(** What one call of the appender does: the texts it hands to [write_text]
    for [data/spells.js], in order, and what it prints. *)
Record appender_run : Type := mkRun {
  writes : list string;
  printed : list message
}.

(** [append_to_spells_js]; [file] is the text stored in [data/spells.js]
    before the call, [None] when the file does not exist.  [read_text]
    translates the line ends of the stored text; the collection written at
    line 109 reads back as [empty_collection] whatever the line separator of
    the platform.  The file holds text: [read_text] raises on bytes that
    are not UTF-8. *)
Definition append_to_spells_js (file : option string) (entries : list entry)
  : appender_run :=
  let '(content, created, warned) :=
    match file with
    | None => (empty_collection, [empty_collection], [NotFoundCreating])
    | Some c => (universal_newlines c, [], [])
    end in
  let pos := PyStr.rfind content "];" in
  if (pos =? -1)%Z
  then {| writes := created; printed := (warned ++ [CouldNotFindMarker])%list |}
  else
    let new_content :=
      PyStr.slice_to (Z.to_nat pos) content ++ insert_text entries
      ++ PyStr.slice_from (Z.to_nat pos) content in
    {| writes := (created ++ [new_content])%list;
       printed := (warned ++ [Added (List.length entries)])%list |}.

(** The variables that live across iterations of the page loop, with the
    files written so far and the names the operator was asked about. *)
Record state : Type := mkState {
  entries : list entry;
  skipped : nat;
  level : pyval;
  school : option string;
  classes : list string;
  files : list string;
  asked : list string
}.

(** Lines 161-165. *)
Definition initial_state : state :=
  {| entries := []; skipped := 0; level := VInt 0; school := Some EmptyString;
     classes := []; files := []; asked := [] |}.

(** What lines 171-186 leave behind: a skipped page with the values now in
    [school] and [level], or an accepted page with [name], [pname], the
    integer [level] and the [school] string. *)
Inductive reconciled : Type :=
| Skip (school : option string) (level : pyval)
| Accepted (name pname : option string) (level : Z) (school : string).

(** Lines 171-186 of the page loop. *)
Definition reconcile (school : option string) (level : pyval) (p : page)
  : result reconciled :=
  let name := get_form_field p "Name_" in
  let pname := get_form_field p "PName_" in
  let '(name, school, level) :=
    if negb (truthy pname)
    then (name, get_form_field p "School_", of_field (get_form_field p "Level_"))
    else (pname, school, level) in
  if negb (truthy (py_or name pname))
  then Ok (Skip school level)
  else
    level <- py_int level ;;
    let school := str_or school "Unknown" in
    Ok (Accepted name pname level school).

Section Driver.

(** The line the operator types at the k-th prompt of the run. *)
Variable operator : nat -> string.

(** One iteration of the page loop, lines 167-227, when the three artifacts
    are rendered and written and the operator's line is read without an
    error; [process_page_fs] below has these failures as well. *)
Definition process_page (st : state) (p : page) : result state :=
  r <- reconcile (school st) (level st) p ;;
  match r with
  | Skip school level =>
      Ok {| entries := entries st; skipped := S (skipped st);
            level := level; school := school; classes := classes st;
            files := files st; asked := asked st |}
  | Accepted name pname level school =>
      let slug := name in
      let pdf_out := SPELLS_PDF_DIR ++ "/" ++ fmt slug ++ ".pdf" in
      let img_out := IMAGES_DIR ++ "/" ++ fmt slug ++ ".webp" in
      let hires_out := HIRES_DIR ++ "/" ++ fmt slug ++ ".png" in
      let '(classes, asked) :=
        if negb (truthy pname)
        then (ask_classes (operator (List.length (asked st))),
              (asked st ++ [fmt name])%list)
        else (classes st, asked st) in
      Ok {| entries := (entries st ++
              [ {| e_name := name; e_level := level; e_school := school;
                   e_classes := classes; e_image := img_out;
                   e_pdf := pdf_out |} ])%list;
            skipped := skipped st;
            level := VInt level; school := Some school; classes := classes;
            files := (files st ++ [pdf_out; img_out; hires_out])%list;
            asked := asked |}
  end.

(** The page loop: the first exception ends it. *)
Fixpoint run (st : state) (pages : list page) : result state :=
  match pages with
  | [] => Ok st
  | p :: rest => st' <- process_page st p ;; run st' rest
  end.

(** The script from line 161 on; [file] is the content of [data/spells.js]
    before the run.  The appender runs only when a record was accepted. *)
Definition main (doc : list page) (file : option string)
  : result (state * option appender_run) :=
  st <- run initial_state doc ;;
  Ok (st, match entries st with
          | [] => None
          | _ => Some (append_to_spells_js file (entries st))
          end).

End Driver.

(** ** The page loop with its failures *)

Section Script.

(** The line typed at the k-th prompt of the run, [None] at the end of the
    input. *)
Variable answers : nat -> option string.

(** Whether the artifact that would be the k-th file of the run, stored at
    this path, is rendered and written without an error. *)
Variable can_save : nat -> string -> bool.

(** Line 94 hands each run of digits to [int], which refuses a run of more
    than [int_max_str_digits] digits. *)
Definition answer_too_long (typed : string) : bool :=
  existsb (fun idx_str => (int_max_str_digits <? Z.of_nat (List.length idx_str))%Z)
    (findall_digits [] (list_ascii_of_string (PyStr.strip typed))).

(** [ask_classes] at the k-th prompt, with the failures of [input] and of
    [int]. *)
Definition ask_classes_fs (k : nat) : result (list string) :=
  match answers k with
  | None => Raise EOFError
  | Some typed =>
      if answer_too_long typed then Raise ValueError
      else Ok (ask_classes typed)
  end.

(** One iteration of the page loop, lines 167-227. *)
Definition process_page_fs (st : state) (p : page) : result state :=
  r <- reconcile (school st) (level st) p ;;
  match r with
  | Skip school level =>
      Ok {| entries := entries st; skipped := S (skipped st);
            level := level; school := school; classes := classes st;
            files := files st; asked := asked st |}
  | Accepted name pname level school =>
      let slug := name in
      let k := List.length (files st) in
      let pdf_out := SPELLS_PDF_DIR ++ "/" ++ fmt slug ++ ".pdf" in
      if negb (can_save k pdf_out) then Raise SaveError else
      let img_out := IMAGES_DIR ++ "/" ++ fmt slug ++ ".webp" in
      if negb (can_save (S k) img_out) then Raise SaveError else
      let hires_out := HIRES_DIR ++ "/" ++ fmt slug ++ ".png" in
      if negb (can_save (S (S k)) hires_out) then Raise SaveError else
      prompted <-
        (if negb (truthy pname)
         then cs <- ask_classes_fs (List.length (asked st)) ;;
              Ok (cs, (asked st ++ [fmt name])%list)
         else Ok (classes st, asked st)) ;;
      let '(classes, asked) := prompted in
      Ok {| entries := (entries st ++
              [ {| e_name := name; e_level := level; e_school := school;
                   e_classes := classes; e_image := img_out;
                   e_pdf := pdf_out |} ])%list;
            skipped := skipped st;
            level := VInt level; school := Some school; classes := classes;
            files := (files st ++ [pdf_out; img_out; hires_out])%list;
            asked := asked |}
  end.

(** The page loop: the first exception ends it. *)
Fixpoint run_fs (st : state) (pages : list page) : result state :=
  match pages with
  | [] => Ok st
  | p :: rest => st' <- process_page_fs st p ;; run_fs st' rest
  end.

(** The script from line 161 on. *)
Definition main_fs (doc : list page) (file : option string)
  : result (state * option appender_run) :=
  st <- run_fs initial_state doc ;;
  Ok (st, match entries st with
          | [] => None
          | _ => Some (append_to_spells_js file (entries st))
          end).

(** The operator of [process_page] who types what [answers] holds. *)
Definition operator_of (k : nat) : string :=
  match answers k with
  | Some typed => typed
  | None => EmptyString
  end.

End Script.

(** ** Vocabulary of the specification *)

(** The two page layouts: a page whose [PName_] value is true is handled as
    name-only, any other accepted page as full. *)
Inductive variant : Type := NameOnly | Full.

Definition variant_of (pname : option string) : variant :=
  if truthy pname then NameOnly else Full.

(** The page passes the test of line 179 and is skipped. *)
Definition is_skipped (p : page) : bool :=
  negb (truthy (get_form_field p "Name_")
        || truthy (get_form_field p "PName_")).

(** The value that line 184 hands to [int]: the carried [level] on a
    name-only page, the page's own [Level_] otherwise. *)
Definition level_to_coerce (level : pyval) (p : page) : pyval :=
  if truthy (get_form_field p "PName_") then level
  else of_field (get_form_field p "Level_").

(** The value of [name] once lines 173-177 have run. *)
Definition name_in_use (p : page) : option string :=
  if truthy (get_form_field p "PName_") then get_form_field p "PName_"
  else get_form_field p "Name_".

(** The value of [school] once lines 173-177 have run: the carried one on a
    name-only page, the page's own [School_] otherwise. *)
Definition school_in_use (school : option string) (p : page) : option string :=
  if truthy (get_form_field p "PName_") then school
  else get_form_field p "School_".

(** The paths of a record are built from its name as it stands. *)
Definition paths_from_name (e : entry) : Prop :=
  exists n, e_name e = Some n /\ n <> EmptyString
    /\ e_pdf e = SPELLS_PDF_DIR ++ "/" ++ n ++ ".pdf"
    /\ e_image e = IMAGES_DIR ++ "/" ++ n ++ ".webp".

(** Groups of decimal digits separated by single underscores. *)
Inductive digit_groups : list ascii -> Prop :=
| dg_last d : PyStr.is_digit d = true -> digit_groups [d]
| dg_digit d l : PyStr.is_digit d = true -> digit_groups l -> digit_groups (d :: l)
| dg_under d l :
    PyStr.is_digit d = true -> digit_groups l -> digit_groups (d :: "_"%char :: l).

(** An integer numeral: an optional sign, then digit groups. *)
Inductive integer_numeral : list ascii -> Prop :=
| num_plain l : digit_groups l -> integer_numeral l
| num_plus l : digit_groups l -> integer_numeral ("+"%char :: l)
| num_minus l : digit_groups l -> integer_numeral ("-"%char :: l).

(** A level is numeric when it is an integer already, or text that, once
    the whitespace around it is dropped, is an integer numeral of at most
    [int_max_str_digits] digits; [None] is not. *)
Definition numeric (v : pyval) : Prop :=
  match v with
  | VInt _ => True
  | VStr s =>
      integer_numeral (int_strip (list_ascii_of_string s))
      /\ (count_digits (int_strip (list_ascii_of_string s)) <= int_max_str_digits)%Z
  | VNone => False
  end.

(** The characters a slug is made of. *)
Definition slug_char (c : ascii) : bool :=
  PyStr.is_lower c || PyStr.is_digit c || Ascii.eqb c PyStr.hyphen.

Definition is_alnum (c : ascii) : bool :=
  PyStr.is_lower c || PyStr.is_upper c || PyStr.is_digit c.

Definition first_char (s : string) : option ascii :=
  hd_error (list_ascii_of_string s).

Definition last_char (s : string) : option ascii :=
  hd_error (rev (list_ascii_of_string s)).

(** The classes of the record stored last, the empty list when there is none. *)
Definition last_classes (es : list entry) : list string :=
  match rev es with
  | e :: _ => e_classes e
  | [] => []
  end.

(** [sub] occurs in [s] right after the prefix [pre]. *)
Definition occurs_after (sub s pre : string) : Prop :=
  exists post, s = pre ++ sub ++ post.

Section AcceptedPage.

Variable operator : nat -> string.

(** The state lines 186-225 leave after an accepted page whose level was
    coerced to [z]. *)
Definition accepted_state (st : state) (p : page) (z : Z) : state :=
  let name := name_in_use p in
  let pname := get_form_field p "PName_" in
  let sch := str_or (school_in_use (school st) p) "Unknown" in
  let pdf_out := SPELLS_PDF_DIR ++ "/" ++ fmt name ++ ".pdf" in
  let img_out := IMAGES_DIR ++ "/" ++ fmt name ++ ".webp" in
  let hires_out := HIRES_DIR ++ "/" ++ fmt name ++ ".png" in
  let cls := if truthy pname then classes st
             else ask_classes (operator (List.length (asked st))) in
  {| entries := (entries st ++
        [ {| e_name := name; e_level := z; e_school := sch; e_classes := cls;
             e_image := img_out; e_pdf := pdf_out |} ])%list;
     skipped := skipped st; level := VInt z; school := Some sch;
     classes := cls;
     files := (files st ++ [pdf_out; img_out; hires_out])%list;
     asked := if truthy pname then asked st
              else (asked st ++ [fmt name])%list |}.

End AcceptedPage.

(** ** Sample pages *)

Definition text_field (t v : string) : annot :=
  mkAnnot (Some (TextString t)) (Some (TextString v)) None.

Definition empty_field (t : string) : annot :=
  mkAnnot (Some (TextString t)) None None.

Definition page_of (l : list annot) : page := mkPage (Some l).

Definition page_magic_missile : page :=
  page_of [ text_field "Name_F00" "Magic Missile";
            text_field "School_F01" "Evocation";
            text_field "Level_F02" "1" ].

Definition page_light : page := page_of [ text_field "PName_F00" "Light" ].

Definition page_fireball : page := page_of [ text_field "PName_F00" "Fireball" ].

Definition page_blank : page := page_of [ text_field "Note_F00" "errata" ].

Definition page_blank_level5 : page :=
  page_of [ text_field "School_F01" "Necromancy"; text_field "Level_F02" "5" ].

Definition page_no_level : page :=
  page_of [ text_field "Name_F00" "Cure Wounds";
            text_field "School_F01" "Evocation" ].

Definition page_empty_pname : page :=
  page_of [ text_field "PName_F00" EmptyString;
            text_field "Name_F01" "Shield";
            text_field "School_F02" "Abjuration";
            text_field "Level_F03" "1" ].

Definition page_two_matches : page :=
  page_of [ empty_field "Name_A"; text_field "Name_B" "Fireball" ].

Definition page_empty_name : page :=
  page_of [ text_field "Name_F00" EmptyString;
            text_field "School_F01" "Evocation";
            text_field "Level_F02" "3" ].

Definition page_unfilled_name : page := page_of [ empty_field "Name_A" ].

Definition wizard_operator : nat -> string := fun _ => "12".

Definition record_magic_missile : entry :=
  {| e_name := Some "Magic Missile"; e_level := 1; e_school := "Evocation";
     e_classes := ["Wizard"];
     e_image := "images/Magic Missile.webp";
     e_pdf := "spells/Magic Missile.pdf" |}.

Definition record_light : entry :=
  {| e_name := Some "Light"; e_level := 1; e_school := "Evocation";
     e_classes := ["Wizard"];
     e_image := "images/Light.webp"; e_pdf := "spells/Light.pdf" |}.


Definition state_after_magic_missile : state :=
  {| entries := [record_magic_missile];
     skipped := 0; level := VInt 1; school := Some "Evocation";
     classes := ["Wizard"];
     files := [ "spells/Magic Missile.pdf"; "images/Magic Missile.webp";
                "high_res_images/Magic Missile.png" ];
     asked := ["Magic Missile"] |}.

Definition state_after_light : state :=
  {| entries := [record_magic_missile; record_light];
     skipped := 0; level := VInt 1; school := Some "Evocation";
     classes := ["Wizard"];
     files := [ "spells/Magic Missile.pdf"; "images/Magic Missile.webp";
                "high_res_images/Magic Missile.png";
                "spells/Light.pdf"; "images/Light.webp";
                "high_res_images/Light.png" ];
     asked := ["Magic Missile"] |}.

(** ** Further vocabulary *)

(** [s.lower()] *)
Definition str_lower (s : string) : string :=
  string_of_list_ascii (map PyStr.lower_char (list_ascii_of_string s)).

(** Line 208: the path of the print image of a record. *)
Definition hires_path (e : entry) : string :=
  HIRES_DIR ++ "/" ++ fmt (e_name e) ++ ".png".

(** The three files written for a record, in the order lines 195, 205 and
    212 write them. *)
Definition artifacts_of (e : entry) : list string :=
  [e_pdf e; e_image e; hires_path e].

(** The page is accepted as a full page: it passes line 179 and line 215
    asks the operator about it. *)
Definition is_prompted (p : page) : bool :=
  negb (is_skipped p) && negb (truthy (get_form_field p "PName_")).

(** The operator's line has no decimal digit. *)
Definition no_digit (typed : string) : Prop :=
  forall c, In c (list_ascii_of_string typed) -> PyStr.is_digit c = false.


(** The four prefixes the page loop looks up, lines 171-175. *)
Definition field_prefixes : list string :=
  ["Name_"; "PName_"; "School_"; "Level_"].

(** The digits of a decimal numeral, most significant first. *)
Definition uint_chars (d : Decimal.uint) : list ascii :=
  list_ascii_of_string (NilEmpty.string_of_uint d).

(** The items of the menu of line 45, [[1]Barbarian] and so on; [i] is the
    index [enumerate] gives to the first class of [cs]. *)
Fixpoint menu_items (i : Z) (cs : list string) : list string :=
  match cs with
  | [] => []
  | c :: rest => ("[" ++ PyStr.str_of_int (i + 1) ++ "]" ++ c) :: menu_items (i + 1) rest
  end.

(** Line 45. *)
Definition CLASS_MENU : string := PyStr.join "  " (menu_items 0 CLASSES).

(** The text holds no carriage return. *)
Fixpoint no_cr (s : string) : bool :=
  match s with
  | EmptyString => true
  | String c rest => negb (Ascii.eqb c "013"%char) && no_cr rest
  end.

(** [str] prints the integer: it has at most [int_max_str_digits] digits. *)
Definition printable (z : Z) : Prop := (Z.abs z < 10 ^ int_max_str_digits)%Z.

(** The levels kept by the page loop: those of the records, and the carried
    one when it is an integer. *)
Definition levels_printable (st : state) : Prop :=
  Forall (fun e => printable (e_level e)) (entries st)
  /\ forall z, level st = VInt z -> printable z.

(** The three artifacts of a page stored under [name] can be saved, as files
    [k], [k + 1] and [k + 2] of the run. *)
Definition artifacts_saved (can_save : nat -> string -> bool) (k : nat)
    (name : option string) : bool :=
  can_save k (SPELLS_PDF_DIR ++ "/" ++ fmt name ++ ".pdf")
  && can_save (S k) (IMAGES_DIR ++ "/" ++ fmt name ++ ".webp")
  && can_save (S (S k)) (HIRES_DIR ++ "/" ++ fmt name ++ ".png").

(** A file system in which the three output directories exist and hold no
    directory: a file can be written exactly at the paths with one slash. *)
Definition flat_output_dirs (k : nat) (path : string) : bool :=
  (List.length (filter (Ascii.eqb "/"%char) (list_ascii_of_string path)) =? 1)%nat.

(** Every artifact is rendered and written. *)
Definition all_saved (k : nat) (path : string) : bool := true.

Definition wizard_answers : nat -> option string := fun _ => Some "12".

(** The input is at its end. *)
Definition no_answers : nat -> option string := fun _ => None.

(** A full page whose [Level_] field holds [lvl]. *)
Definition page_with_level (lvl : string) : page :=
  page_of [ text_field "Name_F00" "Bless";
            text_field "School_F01" "Enchantment";
            text_field "Level_F02" lvl ].

Definition page_fire_ice : page :=
  page_of [ text_field "Name_F00" "Fire/Ice";
            text_field "School_F01" "Evocation";
            text_field "Level_F02" "1" ].

Definition carriage_return : string := String "013"%char EmptyString.

(** The line separators of the platforms: a line feed, or a carriage return
    and a line feed. *)
Definition crlf : string := carriage_return ++ newline.

(** A collection file whose lines end with a carriage return and a line
    feed, and one whose lines end with a carriage return alone. *)
Definition crlf_collection : string :=
  "const SPELLS = [" ++ carriage_return ++ newline
  ++ "];" ++ carriage_return ++ newline.


(** * Properties *)

(** ** Characters *)

Ltac by_ascii_cases c :=
  destruct c as [[|] [|] [|] [|] [|] [|] [|] [|]]; vm_compute;
  try reflexivity; try discriminate; try tauto; try congruence.

Lemma alnum_not_space c : is_alnum c = true -> PyStr.isspace c = false.
Proof. by_ascii_cases c. Qed.

Lemma alnum_lower_kept c :
  is_alnum c = true ->
  PyStr.is_lower (PyStr.lower_char c) || PyStr.is_digit (PyStr.lower_char c) = true.
Proof. by_ascii_cases c. Qed.

Lemma lower_not_space c :
  PyStr.isspace c = false -> PyStr.isspace (PyStr.lower_char c) = false.
Proof. by_ascii_cases c. Qed.

Lemma lower_or_digit_not_space c :
  PyStr.is_lower c || PyStr.is_digit c = true -> PyStr.isspace c = false.
Proof. by_ascii_cases c. Qed.

Lemma lower_or_digit_not_hyphen c :
  PyStr.is_lower c || PyStr.is_digit c = true -> c <> PyStr.hyphen.
Proof. by_ascii_cases c. Qed.

Lemma lower_or_digit_not_upper c :
  PyStr.is_lower c || PyStr.is_digit c = true -> PyStr.is_upper c = false.
Proof. by_ascii_cases c. Qed.

Lemma hyphen_not_upper : PyStr.is_upper PyStr.hyphen = false.
Proof. reflexivity. Qed.

(** ** Stripping *)

Section CharLists.

Local Open Scope list_scope.

Lemma dropwhile_keeps_last f l c :
  f c = false -> exists l', PyStr.dropwhile f (l ++ [c]) = l' ++ [c].
Proof.
  intros Hc. induction l as [|x l IH]; simpl.
  - rewrite Hc. exists []. reflexivity.
  - destruct (f x).
    + exact IH.
    + exists (x :: l). reflexivity.
Qed.

Lemma rstrip_keeps_last l c :
  PyStr.isspace c = false -> PyStr.rstrip_chars (l ++ [c]) = l ++ [c].
Proof.
  intros Hc. unfold PyStr.rstrip_chars.
  rewrite rev_app_distr. simpl. rewrite Hc. simpl.
  rewrite rev_involutive. reflexivity.
Qed.

Lemma rstrip_keeps_head l c :
  PyStr.isspace c = false ->
  exists l', PyStr.rstrip_chars (c :: l) = c :: l'.
Proof.
  intros Hc. unfold PyStr.rstrip_chars. simpl.
  destruct (dropwhile_keeps_last PyStr.isspace (rev l) c Hc) as [l' Hl'].
  rewrite Hl'. rewrite rev_app_distr. simpl. eauto.
Qed.

Lemma strip_keeps_head l c :
  PyStr.isspace c = false ->
  exists l', PyStr.strip_chars (c :: l) = c :: l'.
Proof.
  intros Hc. unfold PyStr.strip_chars, PyStr.lstrip_chars. simpl.
  rewrite Hc. apply rstrip_keeps_head. exact Hc.
Qed.

Lemma strip_keeps_last l c :
  PyStr.isspace c = false ->
  exists l', PyStr.strip_chars (l ++ [c]) = l' ++ [c].
Proof.
  intros Hc. unfold PyStr.strip_chars, PyStr.lstrip_chars.
  destruct (dropwhile_keeps_last PyStr.isspace l c Hc) as [l' Hl'].
  rewrite Hl'. exists l'. apply rstrip_keeps_last. exact Hc.
Qed.

(** ** The slug normalizer *)

Lemma sub_ws_runs_alphabet b l :
  Forall (fun c => slug_keep c = true) l ->
  Forall (fun c => slug_char c = true) (sub_ws_runs b l).
Proof.
  intros H. revert b. induction H as [|c l Hc _ IH]; intros b; simpl.
  - constructor.
  - destruct (PyStr.isspace c) eqn:Hs.
    + destruct b; [apply IH | constructor; [reflexivity | apply IH]].
    + constructor; [|apply IH].
      unfold slug_keep in Hc. unfold slug_char.
      rewrite Hs in Hc. rewrite orb_false_r in Hc. exact Hc.
Qed.

Lemma slugify_chars_alphabet l :
  Forall (fun c => slug_char c = true) (slugify_chars l).
Proof.
  unfold slugify_chars. apply sub_ws_runs_alphabet.
  apply Forall_forall. intros c Hin. apply filter_In in Hin. tauto.
Qed.

Lemma sub_ws_runs_keeps_last b l c :
  PyStr.isspace c = false ->
  exists l', sub_ws_runs b (l ++ [c]) = l' ++ [c].
Proof.
  intros Hc. revert b. induction l as [|x l IH]; intros b; simpl.
  - rewrite Hc. exists []. reflexivity.
  - destruct (PyStr.isspace x).
    + destruct b.
      * apply IH.
      * destruct (IH true) as [l' Hl']. rewrite Hl'.
        exists (PyStr.hyphen :: l'). reflexivity.
    + destruct (IH false) as [l' Hl']. rewrite Hl'.
      exists (x :: l'). reflexivity.
Qed.

Lemma slugify_chars_head c l :
  is_alnum c = true ->
  exists l', slugify_chars (c :: l) = PyStr.lower_char c :: l'.
Proof.
  intros Hc. unfold slugify_chars.
  destruct (strip_keeps_head l c (alnum_not_space c Hc)) as [l1 H1].
  rewrite H1. simpl.
  pose proof (alnum_lower_kept c Hc) as Hk.
  assert (Hkeep : slug_keep (PyStr.lower_char c) = true).
  { unfold slug_keep. rewrite Hk. reflexivity. }
  rewrite Hkeep. simpl.
  rewrite (lower_or_digit_not_space _ Hk). eauto.
Qed.

Lemma slugify_chars_last c l :
  is_alnum c = true ->
  exists l', slugify_chars (l ++ [c]) = l' ++ [PyStr.lower_char c].
Proof.
  intros Hc. unfold slugify_chars.
  destruct (strip_keeps_last l c (alnum_not_space c Hc)) as [l1 H1].
  rewrite H1. rewrite map_app, filter_app. simpl.
  pose proof (alnum_lower_kept c Hc) as Hk.
  assert (Hkeep : slug_keep (PyStr.lower_char c) = true).
  { unfold slug_keep. rewrite Hk. reflexivity. }
  rewrite Hkeep.
  apply sub_ws_runs_keeps_last. apply (lower_or_digit_not_space _ Hk).
Qed.

Lemma rev_last_char (l : list ascii) c :
  hd_error (rev l) = Some c -> exists l', l = l' ++ [c].
Proof.
  intros H. destruct (rev l) as [|x r] eqn:E; [discriminate|].
  simpl in H. injection H as ->.
  exists (rev r). rewrite <- (rev_involutive l), E. reflexivity.
Qed.

End CharLists.

Example slugify_magic_missile : slugify "  Magic Missile! " = "magic-missile".
Proof. reflexivity. Qed.

(** C9 (as amended).  Every character of a slug is a lowercase letter, a
    digit or a hyphen, so a slug holds no uppercase letter; and when the
    name begins (ends) with an ASCII letter or digit, the slug does not
    begin (end) with a hyphen. *)
Theorem slugify_alphabet_and_edges (name : string) :
  (forall c, In c (list_ascii_of_string (slugify name)) ->
     slug_char c = true /\ PyStr.is_upper c = false)
  /\ (forall c, first_char name = Some c -> is_alnum c = true ->
        first_char (slugify name) = Some (PyStr.lower_char c)
        /\ first_char (slugify name) <> Some PyStr.hyphen)
  /\ (forall c, last_char name = Some c -> is_alnum c = true ->
        last_char (slugify name) = Some (PyStr.lower_char c)
        /\ last_char (slugify name) <> Some PyStr.hyphen).
Proof.
  unfold slugify, first_char, last_char.
  rewrite list_ascii_of_string_of_list_ascii.
  repeat split.
  - pose proof (slugify_chars_alphabet (list_ascii_of_string name)) as H1.
    rewrite Forall_forall in H1. apply H1. assumption.
  - pose proof (slugify_chars_alphabet (list_ascii_of_string name)) as H1.
    rewrite Forall_forall in H1. specialize (H1 c H).
    unfold slug_char in H1. apply orb_true_iff in H1. destruct H1 as [H1|H1].
    + apply lower_or_digit_not_upper. exact H1.
    + apply Ascii.eqb_eq in H1. subst c. reflexivity.
  - destruct (list_ascii_of_string name) as [|x l]; [discriminate|].
    simpl in H. injection H as ->.
    destruct (slugify_chars_head c l H0) as [l' ->]. reflexivity.
  - destruct (list_ascii_of_string name) as [|x l]; [discriminate|].
    simpl in H. injection H as ->.
    destruct (slugify_chars_head c l H0) as [l' ->]. simpl.
    intros E. injection E as E.
    exact (lower_or_digit_not_hyphen _ (alnum_lower_kept c H0) E).
  - destruct (rev_last_char _ _ H) as [l ->].
    destruct (slugify_chars_last c l H0) as [l' ->].
    rewrite rev_app_distr. reflexivity.
  - destruct (rev_last_char _ _ H) as [l ->].
    destruct (slugify_chars_last c l H0) as [l' ->].
    rewrite rev_app_distr. simpl.
    intros E. injection E as E.
    exact (lower_or_digit_not_hyphen _ (alnum_lower_kept c H0) E).
Qed.

Lemma slugify_alphabet_and_edges_witness :
  first_char "Magic Missile" = Some "M"%char
  /\ last_char "Magic Missile" = Some "e"%char
  /\ first_char (slugify "Magic Missile") <> Some PyStr.hyphen
  /\ last_char (slugify "Magic Missile") <> Some PyStr.hyphen
  /\ slug_char "m"%char = true.
Proof.
  destruct (slugify_alphabet_and_edges "Magic Missile") as [Ha [Hf Hl]].
  split; [reflexivity|]. split; [reflexivity|].
  split; [apply (Hf "M"%char); reflexivity|].
  split; [apply (Hl "e"%char); reflexivity|].
  apply (Ha "m"%char). simpl. left. reflexivity.
Defined.

(** C9 (as stated) fails: the name [-a] has no whitespace at either end,
    yet its slug [-a] begins with a hyphen. *)
Lemma slugify_leading_hyphen_counterexample :
  PyStr.strip "-a" = "-a"
  /\ slugify "-a" = "-a"
  /\ first_char (slugify "-a") = Some PyStr.hyphen.
Proof. repeat split; reflexivity. Qed.

(** ** The record reconciler *)

Lemma truthy_some o :
  truthy o = true -> exists n, o = Some n /\ n <> EmptyString.
Proof.
  destruct o as [n|]; simpl; [|discriminate].
  intros H. exists n. split; [reflexivity|].
  intros ->. discriminate.
Qed.

Lemma truthy_nonempty n : n <> EmptyString -> truthy (Some n) = true.
Proof.
  intros H. simpl. destruct (String.eqb n EmptyString) eqn:E; [|reflexivity].
  apply String.eqb_eq in E. contradiction.
Qed.

(** Lines 171-186 in terms of the vocabulary above. *)
Lemma reconcile_unfold school level p :
  reconcile school level p =
  if is_skipped p
  then Ok (Skip (school_in_use school p) (level_to_coerce level p))
  else
    z <- py_int (level_to_coerce level p) ;;
    Ok (Accepted (name_in_use p) (get_form_field p "PName_") z
          (str_or (school_in_use school p) "Unknown")).
Proof.
  unfold reconcile, is_skipped, school_in_use, level_to_coerce, name_in_use, py_or.
  destruct (truthy (get_form_field p "PName_")) eqn:Hp; simpl.
  - rewrite !Hp. rewrite orb_true_r. reflexivity.
  - destruct (truthy (get_form_field p "Name_")) eqn:Hn; simpl.
    + rewrite Hn. reflexivity.
    + rewrite Hp. reflexivity.
Qed.

Lemma name_in_use_truthy p : is_skipped p = false -> truthy (name_in_use p) = true.
Proof.
  unfold is_skipped, name_in_use. intros H.
  apply negb_false_iff in H.
  destruct (truthy (get_form_field p "PName_")) eqn:Hp; [exact Hp|].
  rewrite orb_false_r in H. exact H.
Qed.

Lemma py_int_cases v : (exists z, py_int v = Ok z) \/ (exists e, py_int v = Raise e).
Proof.
  destruct v as [|z|s]; simpl; eauto.
  destruct (int_of_str s); eauto.
Qed.

Section DriverFacts.

Variable operator : nat -> string.

(** A skipped page: the counter goes up, [school] and [level] take what
    lines 174-175 resolved, everything else stays. *)
Lemma process_page_skip st p :
  is_skipped p = true ->
  process_page operator st p =
  Ok {| entries := entries st; skipped := S (skipped st);
        level := of_field (get_form_field p "Level_");
        school := get_form_field p "School_";
        classes := classes st; files := files st; asked := asked st |}.
Proof.
  intros H. unfold process_page. rewrite reconcile_unfold, H. simpl.
  unfold school_in_use, level_to_coerce.
  unfold is_skipped in H. apply negb_true_iff, orb_false_iff in H.
  destruct H as [_ ->]. reflexivity.
Qed.

(** A page that is not skipped: the outcome hangs on [int(level)] alone. *)
Lemma process_page_accept st p :
  is_skipped p = false ->
  process_page operator st p =
  z <- py_int (level_to_coerce (level st) p) ;; Ok (accepted_state operator st p z).
Proof.
  intros H. unfold process_page. rewrite reconcile_unfold, H.
  destruct (py_int (level_to_coerce (level st) p)) as [z|e]; simpl; [|reflexivity].
  unfold accepted_state.
  destruct (truthy (get_form_field p "PName_")); reflexivity.
Qed.

Lemma process_page_inv st p st' :
  process_page operator st p = Ok st' ->
  (is_skipped p = true /\ entries st' = entries st)
  \/ (is_skipped p = false /\ exists z,
        py_int (level_to_coerce (level st) p) = Ok z
        /\ st' = accepted_state operator st p z).
Proof.
  intros H. destruct (is_skipped p) eqn:Hs.
  - left. rewrite (process_page_skip st p Hs) in H. injection H as <-. auto.
  - right. split; [reflexivity|].
    rewrite (process_page_accept st p Hs) in H.
    destruct (py_int (level_to_coerce (level st) p)) as [z|e]; simpl in H;
      [|discriminate].
    injection H as <-. eauto.
Qed.

Lemma accepted_paths st p z :
  is_skipped p = false ->
  exists e, entries (accepted_state operator st p z) = (entries st ++ [e])%list
    /\ paths_from_name e.
Proof.
  intros Hs. eexists. split; [reflexivity|].
  destruct (truthy_some _ (name_in_use_truthy p Hs)) as [n [Hn Hne]].
  exists n. simpl. rewrite Hn. auto.
Qed.

Lemma run_preserves (P : entry -> Prop) :
  (forall st p z, is_skipped p = false ->
     exists e, entries (accepted_state operator st p z) = (entries st ++ [e])%list
               /\ P e) ->
  forall doc st st',
    Forall P (entries st) -> run operator st doc = Ok st' ->
    Forall P (entries st').
Proof.
  intros Hstep doc. induction doc as [|p rest IH]; intros st st' Hst Hrun.
  - simpl in Hrun. injection Hrun as <-. exact Hst.
  - simpl in Hrun.
    destruct (process_page operator st p) as [st1|e] eqn:Hp; simpl in Hrun;
      [|discriminate].
    apply (IH st1 st'); [|exact Hrun].
    destruct (process_page_inv st p st1 Hp) as [[_ He]|[Hs [z [_ ->]]]].
    + rewrite He. exact Hst.
    + destruct (Hstep st p z Hs) as [e [-> He]].
      apply Forall_app. split; [exact Hst|]. constructor; [exact He|constructor].
Qed.

(** C1 (as amended).  Every record a run stores has a non-empty name [n];
    its split-document path is the split-document directory, a slash, [n]
    itself and [.pdf], and its display-image path is the image directory, a
    slash, [n] itself and [.webp].  The slug normalizer is not applied. *)
Theorem artifact_paths_from_name (doc : list page) (st : state) :
  run operator initial_state doc = Ok st ->
  Forall paths_from_name (entries st).
Proof.
  apply (run_preserves paths_from_name).
  - intros st0 p z Hs. apply accepted_paths. exact Hs.
  - constructor.
Qed.

End DriverFacts.

Lemma artifact_paths_from_name_witness :
  exists st,
    run wizard_operator initial_state [page_magic_missile; page_light] = Ok st
    /\ Forall paths_from_name (entries st).
Proof.
  eexists. split.
  - vm_compute. reflexivity.
  - apply (artifact_paths_from_name wizard_operator [page_magic_missile; page_light]).
    vm_compute. reflexivity.
Defined.

(** C1 (as stated) fails: the page named [Magic Missile] is stored under
    [spells/Magic Missile.pdf] and [images/Magic Missile.webp], not under
    the paths built from the slug [magic-missile]. *)
Lemma paths_not_slugified_counterexample :
  process_page wizard_operator initial_state page_magic_missile
    = Ok state_after_magic_missile
  /\ entries state_after_magic_missile = [record_magic_missile]
  /\ e_name record_magic_missile = Some "Magic Missile"
  /\ e_pdf record_magic_missile = "spells/Magic Missile.pdf"
  /\ e_image record_magic_missile = "images/Magic Missile.webp"
  /\ SPELLS_PDF_DIR ++ "/" ++ slugify "Magic Missile" ++ ".pdf"
     = "spells/magic-missile.pdf"
  /\ IMAGES_DIR ++ "/" ++ slugify "Magic Missile" ++ ".webp"
     = "images/magic-missile.webp"
  /\ "spells/Magic Missile.pdf"
     <> SPELLS_PDF_DIR ++ "/" ++ slugify "Magic Missile" ++ ".pdf"
  /\ "images/Magic Missile.webp"
     <> IMAGES_DIR ++ "/" ++ slugify "Magic Missile" ++ ".webp".
Proof.
  repeat split; try (vm_compute; reflexivity); vm_compute; discriminate.
Qed.

(** ** The field resolver *)

Lemma get_form_field_scan p prefix :
  get_form_field p prefix =
  match Annots p with
  | None => None
  | Some fields => scan_fields fields prefix
  end.
Proof.
  unfold get_form_field. destruct (Annots p) as [[|a l]|]; reflexivity.
Qed.

Lemma scan_fields_some fields prefix v :
  scan_fields fields prefix = Some v <->
  exists before a after val,
    fields = (before ++ a :: after)%list
    /\ name_matches a prefix = true
    /\ field_value a = Some val
    /\ v = PyStr.strip (obj_str val)
    /\ forall b, In b before -> name_matches b prefix = true -> field_value b = None.
Proof.
  split.
  - induction fields as [|a rest IH]; simpl; [discriminate|].
    destruct (name_matches a prefix) eqn:Hm.
    + destruct (field_value a) as [val|] eqn:Hv.
      * intros H. injection H as <-.
        exists [], a, rest, val. simpl. intuition.
      * intros H. destruct (IH H) as (before & a' & after & val & -> & H1 & H2 & H3 & H4).
        exists (a :: before), a', after, val. simpl.
        repeat split; auto.
        intros b [<-|Hb] Hb'; auto.
    + intros H. destruct (IH H) as (before & a' & after & val & -> & H1 & H2 & H3 & H4).
      exists (a :: before), a', after, val. simpl.
      repeat split; auto.
      intros b [<-|Hb] Hb'; [congruence|auto].
  - intros (before & a & after & val & -> & H1 & H2 & -> & H4).
    induction before as [|b before IH]; simpl.
    + rewrite H1, H2. reflexivity.
    + destruct (name_matches b prefix) eqn:Hm.
      * rewrite (H4 b (or_introl eq_refl) Hm).
        apply IH. intros b' Hb'. apply H4. right. exact Hb'.
      * apply IH. intros b' Hb'. apply H4. right. exact Hb'.
Qed.

Lemma scan_fields_none fields prefix :
  scan_fields fields prefix = None <->
  forall a, In a fields -> name_matches a prefix = true -> field_value a = None.
Proof.
  induction fields as [|a rest IH]; simpl.
  - split; [intros _ a []|reflexivity].
  - destruct (name_matches a prefix) eqn:Hm.
    + destruct (field_value a) as [val|] eqn:Hv.
      * split; [discriminate|].
        intros H. specialize (H a (or_introl eq_refl) Hm). congruence.
      * rewrite IH. split.
        -- intros H b [<-|Hb] Hb'; auto.
        -- intros H b Hb. apply H. right. exact Hb.
    + rewrite IH. split.
      * intros H b [<-|Hb] Hb'; [congruence|auto].
      * intros H b Hb. apply H. right. exact Hb.
Qed.

(** C2 (as amended).  The resolver returns the trimmed value of the first
    field, in document order, whose identifier starts with the prefix and
    whose value is present; a field that matches but has no value is passed
    over and the later fields are consulted.  It returns absent exactly when
    no matching field has a value.  The value of a field is its own value,
    or the parent's value when the own value is missing or false (the empty
    text, the number zero) and a parent exists; its identifier is found the
    same way. *)
Theorem get_form_field_first_valued (p : page) (prefix : string) :
  (forall v,
     get_form_field p prefix = Some v <->
     exists before a after val,
       Annots p = Some (before ++ a :: after)%list
       /\ name_matches a prefix = true
       /\ field_value a = Some val
       /\ v = PyStr.strip (obj_str val)
       /\ forall b, In b before -> name_matches b prefix = true ->
                    field_value b = None)
  /\ (get_form_field p prefix = None <->
      forall fields a, Annots p = Some fields -> In a fields ->
                       name_matches a prefix = true -> field_value a = None)
  /\ (forall a o, a_V a = Some o -> obj_truthy o = true -> field_value a = Some o)
  /\ (forall a parent, a_Parent a = Some parent ->
        (a_V a = None \/ exists o, a_V a = Some o /\ obj_truthy o = false) ->
        field_value a = f_V parent)
  /\ (forall a, a_Parent a = None -> field_value a = a_V a)
  /\ (forall a o, a_T a = Some o -> obj_truthy o = true -> field_name a = Some o)
  /\ (forall a parent, a_Parent a = Some parent ->
        (a_T a = None \/ exists o, a_T a = Some o /\ obj_truthy o = false) ->
        field_name a = f_T parent).
Proof.
  rewrite get_form_field_scan.
  split; [|split; [|split; [|split; [|split; [|split]]]]].
  - intros v. destruct (Annots p) as [fields|].
    + rewrite scan_fields_some. split.
      * intros (before & a & after & val & -> & H). exists before, a, after, val. auto.
      * intros (before & a & after & val & E & H). injection E as ->.
        exists before, a, after, val. auto.
    + split; [discriminate|].
      intros (before & a & after & val & E & _). discriminate.
  - destruct (Annots p) as [fields|].
    + rewrite scan_fields_none. split.
      * intros H fields' a E. injection E as <-. apply H.
      * intros H a. apply (H fields a eq_refl).
    + split; [intros _ fields a E; discriminate | reflexivity].
  - intros a o Hv Ht. unfold field_value. rewrite Hv, Ht. reflexivity.
  - intros a parent Hp Hv. unfold field_value. rewrite Hp.
    destruct Hv as [->|[o [-> Ho]]]; [reflexivity|]. rewrite Ho. reflexivity.
  - intros a Hp. unfold field_value. rewrite Hp.
    destruct (a_V a) as [o|]; [destruct (obj_truthy o)|]; reflexivity.
  - intros a o Ht Ho. unfold field_name. rewrite Ht, Ho. reflexivity.
  - intros a parent Hp Ht. unfold field_name. rewrite Hp.
    destruct Ht as [->|[o [-> Ho]]]; [reflexivity|]. rewrite Ho. reflexivity.
Qed.

Lemma get_form_field_first_valued_witness :
  get_form_field page_two_matches "Name_" = Some "Fireball"
  /\ get_form_field page_unfilled_name "Name_" = None.
Proof.
  split.
  - apply (get_form_field_first_valued page_two_matches "Name_").
    exists [empty_field "Name_A"], (text_field "Name_B" "Fireball"), [],
      (TextString "Fireball").
    repeat split.
    intros b [<-|[]] _. reflexivity.
  - apply (get_form_field_first_valued page_unfilled_name "Name_").
    intros fields a E. injection E as <-.
    intros [<-|[]] _. reflexivity.
Defined.

(** C2 (as stated) fails.  On a page whose first field [Name_A] has no
    value and whose second field [Name_B] holds [Fireball], the first field
    whose identifier starts with [Name_] has no value, yet the resolver
    goes on and returns the value of the later match; and on a page whose
    only field [Name_A] has no value it returns absent although a field's
    identifier starts with the prefix. *)
Lemma field_resolver_counterexample :
  Annots page_two_matches
    = Some [ empty_field "Name_A"; text_field "Name_B" "Fireball" ]
  /\ name_matches (empty_field "Name_A") "Name_" = true
  /\ field_value (empty_field "Name_A") = None
  /\ get_form_field page_two_matches "Name_" = Some "Fireball"
  /\ Annots page_unfilled_name = Some [ empty_field "Name_A" ]
  /\ get_form_field page_unfilled_name "Name_" = None.
Proof. repeat split; reflexivity. Qed.

(** ** Page variants *)

(** C3 (as amended).  On a page where [PName_] resolves to a non-empty
    value, the page is name-only; [School_] and [Level_] are not resolved
    from it, so any two pages with that [PName_] value are reconciled
    alike; when the carried level coerces to an integer the page is accepted
    with that [PName_] value as its name, the coerced carried level and the
    carried school ([Unknown] when that is absent or empty); when the
    carried level does not coerce, the coercion raises. *)
Theorem name_only_page (school : option string) (level : pyval) (p : page)
    (v : string) :
  get_form_field p "PName_" = Some v -> v <> EmptyString ->
  variant_of (get_form_field p "PName_") = NameOnly
  /\ (forall z, py_int level = Ok z ->
        reconcile school level p =
        Ok (Accepted (Some v) (Some v) z (str_or school "Unknown")))
  /\ (forall e, py_int level = Raise e -> reconcile school level p = Raise e)
  /\ (forall q, get_form_field q "PName_" = Some v ->
        reconcile school level q = reconcile school level p).
Proof.
  intros Hp Hv.
  assert (Ht : forall q, get_form_field q "PName_" = Some v ->
                 truthy (get_form_field q "PName_") = true).
  { intros q ->. apply truthy_nonempty. exact Hv. }
  assert (Hr : forall q, get_form_field q "PName_" = Some v ->
            reconcile school level q =
            z <- py_int level ;;
            Ok (Accepted (Some v) (Some v) z (str_or school "Unknown"))).
  { intros q Hq. rewrite reconcile_unfold.
    unfold is_skipped, level_to_coerce, name_in_use, school_in_use.
    rewrite (Ht q Hq), Hq, orb_true_r. reflexivity. }
  split; [unfold variant_of; rewrite (Ht p Hp); reflexivity|].
  split; [intros z Hz; rewrite (Hr p Hp), Hz; reflexivity|].
  split; [intros e He; rewrite (Hr p Hp), He; reflexivity|].
  intros q Hq. rewrite (Hr p Hp), (Hr q Hq). reflexivity.
Qed.

Lemma name_only_page_witness :
  get_form_field page_fireball "PName_" = Some "Fireball"
  /\ py_int (VInt 1) = Ok 1%Z
  /\ reconcile (Some "Evocation") (VInt 1) page_fireball =
     Ok (Accepted (Some "Fireball") (Some "Fireball") 1 "Evocation").
Proof.
  split; [reflexivity|]. split; [reflexivity|].
  apply (name_only_page (Some "Evocation") (VInt 1) page_fireball "Fireball").
  - reflexivity.
  - discriminate.
  - reflexivity.
Defined.

(** C3 (as stated) fails.  On a page whose [PName_] field holds the empty
    text, [PName_] resolves to that value, yet the page is handled as a full
    page: its name comes from [Name_] and its school and level are resolved
    from the page, not carried.  And after a skipped page without a
    [Level_] field, a page whose [PName_] resolves to [Fireball] yields no
    record: the coercion of the carried level raises. *)
Lemma name_only_page_counterexample :
  get_form_field page_empty_pname "PName_" = Some EmptyString
  /\ reconcile (Some "Evocation") (VInt 3) page_empty_pname =
     Ok (Accepted (Some "Shield") (Some EmptyString) 1 "Abjuration")
  /\ get_form_field page_fireball "PName_" = Some "Fireball"
  /\ run wizard_operator initial_state [page_blank; page_fireball] = Raise TypeError.
Proof. repeat split; vm_compute; reflexivity. Qed.

(** C4 (as amended).  On a page where [PName_] resolves to no value or to
    the empty text and [Name_] resolves to a non-empty value, the page is
    full and [School_] and [Level_] are resolved from it; when [Level_]
    coerces to an integer the page is accepted with the [Name_] value as
    its name, that integer as its level and the [School_] value as its
    school ([Unknown] when [School_] is absent or empty); when [Level_] is
    absent or does not coerce, the coercion raises. *)
Theorem full_page (school : option string) (level : pyval) (p : page)
    (n : string) :
  truthy (get_form_field p "PName_") = false ->
  get_form_field p "Name_" = Some n -> n <> EmptyString ->
  variant_of (get_form_field p "PName_") = Full
  /\ (forall z, py_int (of_field (get_form_field p "Level_")) = Ok z ->
        reconcile school level p =
        Ok (Accepted (Some n) (get_form_field p "PName_") z
              (str_or (get_form_field p "School_") "Unknown")))
  /\ (forall e, py_int (of_field (get_form_field p "Level_")) = Raise e ->
        reconcile school level p = Raise e)
  /\ (get_form_field p "School_" = None
      \/ get_form_field p "School_" = Some EmptyString ->
      str_or (get_form_field p "School_") "Unknown" = "Unknown").
Proof.
  intros Hp Hn Hne.
  assert (Hr : reconcile school level p =
            z <- py_int (of_field (get_form_field p "Level_")) ;;
            Ok (Accepted (Some n) (get_form_field p "PName_") z
                  (str_or (get_form_field p "School_") "Unknown"))).
  { rewrite reconcile_unfold.
    unfold is_skipped, level_to_coerce, name_in_use, school_in_use.
    rewrite Hp, Hn, (truthy_nonempty n Hne). reflexivity. }
  split; [unfold variant_of; rewrite Hp; reflexivity|].
  split; [intros z Hz; rewrite Hr, Hz; reflexivity|].
  split; [intros e He; rewrite Hr, He; reflexivity|].
  intros [->| ->]; reflexivity.
Qed.

Lemma full_page_witness :
  truthy (get_form_field page_magic_missile "PName_") = false
  /\ get_form_field page_magic_missile "Name_" = Some "Magic Missile"
  /\ py_int (of_field (get_form_field page_magic_missile "Level_")) = Ok 1%Z
  /\ reconcile (Some EmptyString) (VInt 0) page_magic_missile =
     Ok (Accepted (Some "Magic Missile") None 1 "Evocation").
Proof.
  split; [reflexivity|]. split; [reflexivity|]. split; [reflexivity|].
  apply (full_page (Some EmptyString) (VInt 0) page_magic_missile "Magic Missile").
  - reflexivity.
  - reflexivity.
  - discriminate.
  - reflexivity.
Defined.

(** C4 (as stated) fails.  A page whose [Name_] resolves to [Cure Wounds]
    and that has no [Level_] field yields no record: the coercion raises.
    And a page whose [Name_] field holds the empty text resolves [Name_] to
    that value, yet is skipped. *)
Lemma full_page_counterexample :
  get_form_field page_no_level "PName_" = None
  /\ get_form_field page_no_level "Name_" = Some "Cure Wounds"
  /\ reconcile (Some EmptyString) (VInt 0) page_no_level = Raise TypeError
  /\ get_form_field page_empty_name "PName_" = None
  /\ get_form_field page_empty_name "Name_" = Some EmptyString
  /\ reconcile (Some EmptyString) (VInt 0) page_empty_name =
     Ok (Skip (Some "Evocation") (VStr "3")).
Proof. repeat split; vm_compute; reflexivity. Qed.

(** ** Numerals and [int] *)

Section Numerals.

Local Open Scope list_scope.

Lemma digit_groups_head c l : digit_groups (c :: l) -> PyStr.is_digit c = true.
Proof. intros H. inversion H; assumption. Qed.

Lemma digit_not_underscore c :
  PyStr.is_digit c = true -> Ascii.eqb c "_"%char = false.
Proof. by_ascii_cases c. Qed.

Lemma digit_not_sign c :
  PyStr.is_digit c = true ->
  Ascii.eqb c "+"%char = false /\ Ascii.eqb c "-"%char = false.
Proof. by_ascii_cases c. Qed.

Lemma scan_digits_complete l :
  digit_groups l -> forall pos acc, exists z, scan_digits pos acc l = Some z.
Proof.
  induction 1 as [d Hd | d l Hd _ IH | d l Hd _ IH]; intros pos acc; simpl;
    rewrite Hd.
  - eauto.
  - apply IH.
  - simpl. apply IH.
Qed.

Lemma scan_digits_sound l :
  forall pos acc z, scan_digits pos acc l = Some z ->
  match pos with
  | AfterDigit =>
      l = [] \/ digit_groups l \/ exists l', l = "_"%char :: l' /\ digit_groups l'
  | _ => digit_groups l
  end.
Proof.
  induction l as [|c l IH]; intros pos acc z H; simpl in H.
  - destruct pos; try discriminate. left. reflexivity.
  - destruct (PyStr.is_digit c) eqn:Hd.
    + assert (Hg : digit_groups (c :: l)).
      { specialize (IH AfterDigit _ _ H). simpl in IH.
        destruct IH as [->|[Hl|[l' [-> Hl']]]].
        - apply dg_last. exact Hd.
        - apply dg_digit; assumption.
        - apply dg_under; assumption. }
      destruct pos; auto.
    + destruct (Ascii.eqb c "_"%char) eqn:Hu; [|discriminate].
      apply Ascii.eqb_eq in Hu. subst c.
      destruct pos; try discriminate.
      specialize (IH AfterUnderscore _ _ H). simpl in IH.
      right. right. exists l. auto.
Qed.

Lemma scan_digits_start l :
  (exists z, scan_digits AtStart 0 l = Some z) <-> digit_groups l.
Proof.
  split.
  - intros [z Hz]. apply (scan_digits_sound l AtStart 0 z Hz).
  - intros H. apply scan_digits_complete. exact H.
Qed.

Lemma int_body_numeral body :
  (exists z, int_body body = Some z) <-> integer_numeral body.
Proof.
  unfold int_body.
  destruct body as [|c r].
  - split; [intros [z Hz]; discriminate|].
    intros H. inversion H as [l0 Hg E| |]. inversion Hg.
  - destruct (Ascii.eqb c "+"%char) eqn:Hplus.
    { apply Ascii.eqb_eq in Hplus. subst c. rewrite scan_digits_start. split.
      - apply num_plus.
      - intros H. inversion H as [l0 Hg E| l0 Hg E |]; [|exact Hg].
        apply digit_groups_head in Hg. discriminate. }
    destruct (Ascii.eqb c "-"%char) eqn:Hminus.
    { apply Ascii.eqb_eq in Hminus. subst c. split.
      - intros [z Hz]. apply num_minus. apply scan_digits_start.
        destruct (scan_digits AtStart 0 r) as [z'|]; [eauto|discriminate].
      - intros H. inversion H as [l0 Hg E| | l0 Hg E].
        + apply digit_groups_head in Hg. discriminate.
        + apply scan_digits_start in Hg. destruct Hg as [z' ->]. simpl. eauto. }
    rewrite scan_digits_start. split.
    + apply num_plain.
    + intros H. inversion H as [l0 Hg E| l0 Hg E | l0 Hg E]; subst.
      * exact Hg.
      * rewrite Ascii.eqb_refl in Hplus. discriminate.
      * rewrite Ascii.eqb_refl in Hminus. discriminate.
Qed.

Lemma int_of_chars_numeral l :
  (exists z, int_of_chars l = Some z) <->
  integer_numeral (int_strip l)
  /\ (count_digits (int_strip l) <= int_max_str_digits)%Z.
Proof.
  unfold int_of_chars. cbv zeta.
  destruct (int_max_str_digits <? count_digits (int_strip l))%Z eqn:E.
  - apply Z.ltb_lt in E. split.
    + intros [z Hz]. discriminate.
    + intros [_ H]. lia.
  - apply Z.ltb_ge in E. rewrite int_body_numeral. tauto.
Qed.

End Numerals.

(** [int] succeeds exactly on the numeric values. *)
Lemma py_int_numeric v : (exists z, py_int v = Ok z) <-> numeric v.
Proof.
  destruct v as [|z|s]; simpl.
  - split; [intros [z Hz]; discriminate | intros []].
  - split; [trivial | eauto].
  - unfold int_of_str. rewrite <- int_of_chars_numeral. split.
    + intros [z Hz].
      destruct (int_of_chars (list_ascii_of_string s)) as [z'|]; [eauto|discriminate].
    + intros [z ->]. eauto.
Qed.

Lemma py_int_raises v : (exists e, py_int v = Raise e) <-> ~ numeric v.
Proof.
  rewrite <- py_int_numeric. split.
  - intros [e He] [z Hz]. congruence.
  - intros H. destruct (py_int_cases v) as [Hz|He]; [contradiction|exact He].
Qed.

Example int_examples :
  int_of_str "1" = Some 1%Z /\ int_of_str " +1_0 " = Some 10%Z
  /\ int_of_str "-007" = Some (-7)%Z /\ int_of_str "1__0" = None
  /\ int_of_str "3rd" = None /\ int_of_str "1.5" = None
  /\ int_of_str EmptyString = None.
Proof. repeat split; reflexivity. Qed.

(** ** The page loop *)


Lemma last_classes_snoc es e : last_classes (es ++ [e])%list = e_classes e.
Proof. unfold last_classes. rewrite rev_app_distr. reflexivity. Qed.

Section PageLoop.

Variable operator : nat -> string.

Lemma run_invariant (I : state -> Prop) :
  (forall st p st', I st -> process_page operator st p = Ok st' -> I st') ->
  forall doc st st', I st -> run operator st doc = Ok st' -> I st'.
Proof.
  intros Hstep doc. induction doc as [|p rest IH]; intros st st' Hst Hrun;
    simpl in Hrun.
  - injection Hrun as <-. exact Hst.
  - destruct (process_page operator st p) as [st1|e] eqn:Hp; simpl in Hrun;
      [|discriminate].
    apply (IH st1 st'); [|exact Hrun]. apply (Hstep st p); assumption.
Qed.

(** The variable [classes] always holds the classes of the record stored
    last. *)
Lemma classes_are_last doc st :
  run operator initial_state doc = Ok st ->
  classes st = last_classes (entries st).
Proof.
  apply (run_invariant (fun s => classes s = last_classes (entries s)));
    [|reflexivity].
  intros s p s' Hs Hp.
  destruct (process_page_inv operator s p s' Hp) as [[Hk He]|[Hk [z [_ ->]]]].
  - rewrite (process_page_skip operator s p Hk) in Hp. injection Hp as <-.
    simpl. exact Hs.
  - unfold accepted_state. cbn [entries classes].
    rewrite last_classes_snoc. reflexivity.
Qed.



(** C7 (as amended).  The operator is asked for classes only on an accepted
    full page, whose record takes the answer; a name-only record is not
    asked about and carries the classes of the record stored just before
    it, so its classes are empty only when that record's are, or when it is
    the first record of the run. *)
Theorem classes_prompt_and_carry (doc : list page) (st : state) (p : page)
    (st' : state) :
  run operator initial_state doc = Ok st ->
  process_page operator st p = Ok st' ->
  (asked st' <> asked st ->
     is_skipped p = false /\ variant_of (get_form_field p "PName_") = Full)
  /\ (is_skipped p = false ->
      variant_of (get_form_field p "PName_") = Full ->
      asked st' = (asked st ++ [fmt (name_in_use p)])%list
      /\ exists e, entries st' = (entries st ++ [e])%list
           /\ e_classes e = ask_classes (operator (List.length (asked st))))
  /\ (variant_of (get_form_field p "PName_") = NameOnly ->
      asked st' = asked st
      /\ exists e, entries st' = (entries st ++ [e])%list
           /\ e_classes e = last_classes (entries st))
  /\ last_classes [] = [].
Proof.
  intros Hrun Hp. pose proof (classes_are_last doc st Hrun) as Hc.
  unfold variant_of.
  destruct (process_page_inv operator st p st' Hp) as [[Hk He]|[Hk [z [_ ->]]]].
  - rewrite (process_page_skip operator st p Hk) in Hp. injection Hp as <-.
    cbn [asked entries].
    assert (Ht : truthy (get_form_field p "PName_") = false).
    { unfold is_skipped in Hk. apply negb_true_iff, orb_false_iff in Hk. tauto. }
    rewrite Ht.
    split; [intros H; contradiction|].
    split; [intros H; congruence|].
    split; [discriminate|reflexivity].
  - unfold accepted_state. cbn [asked entries].
    destruct (truthy (get_form_field p "PName_")) eqn:Ht.
    + split; [intros H; contradiction|].
      split; [discriminate|].
      split; [|reflexivity].
      intros _. split; [reflexivity|]. eexists. split; [reflexivity|].
      cbn [e_classes]. exact Hc.
    + split; [auto|].
      split; [|split; [discriminate|reflexivity]].
      intros _ _. split; [reflexivity|]. eexists. split; reflexivity.
Qed.

End PageLoop.



(** After the full page [Magic Missile], school [Evocation] and level 1, a
    page without a name but with school [Necromancy] and level 5 is
    skipped; the name-only page [Light] that follows is stored with the
    school and level of the skipped page. *)
Example carry_from_skipped_page :
  run wizard_operator initial_state
    [page_magic_missile; page_blank_level5; page_light]
  = Ok {| entries :=
            [ record_magic_missile;
              {| e_name := Some "Light"; e_level := 5; e_school := "Necromancy";
                 e_classes := ["Wizard"];
                 e_image := "images/Light.webp"; e_pdf := "spells/Light.pdf" |} ];
          skipped := 1; level := VInt 5; school := Some "Necromancy";
          classes := ["Wizard"];
          files := [ "spells/Magic Missile.pdf"; "images/Magic Missile.webp";
                     "high_res_images/Magic Missile.png";
                     "spells/Light.pdf"; "images/Light.webp";
                     "high_res_images/Light.png" ];
          asked := ["Magic Missile"] |}.
Proof. vm_compute. reflexivity. Qed.

Lemma classes_prompt_and_carry_witness :
  run wizard_operator initial_state [page_magic_missile]
    = Ok state_after_magic_missile
  /\ process_page wizard_operator state_after_magic_missile page_light
    = Ok state_after_light
  /\ asked state_after_light = asked state_after_magic_missile
  /\ exists e,
       entries state_after_light = (entries state_after_magic_missile ++ [e])%list
       /\ e_classes e = last_classes (entries state_after_magic_missile).
Proof.
  split; [vm_compute; reflexivity|]. split; [vm_compute; reflexivity|].
  apply (classes_prompt_and_carry wizard_operator [page_magic_missile]
           state_after_magic_missile page_light state_after_light);
    vm_compute; reflexivity.
Defined.

(** C7 (as stated) fails.  In a run over the full page [Magic Missile] and
    the name-only page [Light], the operator is asked once, about
    [Magic Missile], and answers 12; the record of [Light], whose classes
    were not collected, carries [Wizard], not the empty list. *)
Lemma name_only_classes_counterexample :
  variant_of (get_form_field page_light "PName_") = NameOnly
  /\ run wizard_operator initial_state [page_magic_missile; page_light]
     = Ok state_after_light
  /\ entries state_after_light = [record_magic_missile; record_light]
  /\ asked state_after_light = ["Magic Missile"]
  /\ e_name record_light = Some "Light"
  /\ e_classes record_light = ["Wizard"]
  /\ e_classes record_light <> [].
Proof.
  repeat split; try (vm_compute; reflexivity). discriminate.
Qed.

(** ** The page loop with its failures *)

Section ScriptFacts.

Variable answers : nat -> option string.
Variable can_save : nat -> string -> bool.

Lemma process_page_fs_skip st p :
  is_skipped p = true ->
  process_page_fs answers can_save st p =
  Ok {| entries := entries st; skipped := S (skipped st);
        level := of_field (get_form_field p "Level_");
        school := get_form_field p "School_";
        classes := classes st; files := files st; asked := asked st |}.
Proof.
  intros H. unfold process_page_fs. rewrite reconcile_unfold, H. simpl.
  unfold school_in_use, level_to_coerce.
  unfold is_skipped in H. apply negb_true_iff, orb_false_iff in H.
  destruct H as [_ ->]. reflexivity.
Qed.

(** A page that is not skipped: line 184, then the three saves, then the
    prompt. *)
Lemma process_page_fs_accept st p :
  is_skipped p = false ->
  process_page_fs answers can_save st p =
  z <- py_int (level_to_coerce (level st) p) ;;
  if negb (artifacts_saved can_save (List.length (files st)) (name_in_use p))
  then Raise SaveError
  else if truthy (get_form_field p "PName_")
  then Ok (accepted_state (operator_of answers) st p z)
  else cs <- ask_classes_fs answers (List.length (asked st)) ;;
       Ok (accepted_state (operator_of answers) st p z).
Proof.
  intros H. unfold process_page_fs. rewrite reconcile_unfold, H.
  destruct (py_int (level_to_coerce (level st) p)) as [z|e]; cbn [bind];
    [|reflexivity].
  unfold artifacts_saved. cbv zeta.
  destruct (can_save (List.length (files st)) _); cbn [negb andb];
    [|reflexivity].
  destruct (can_save (S (List.length (files st))) _); cbn [negb andb];
    [|reflexivity].
  destruct (can_save (S (S (List.length (files st)))) _); cbn [negb andb];
    [|reflexivity].
  unfold accepted_state, ask_classes_fs, operator_of.
  destruct (truthy (get_form_field p "PName_")); cbn [negb bind];
    [reflexivity|].
  destruct (answers (List.length (asked st))) as [typed|]; [|reflexivity].
  destruct (answer_too_long typed); reflexivity.
Qed.

(** What is left of the page loop when nothing but line 184 fails. *)
Lemma process_page_fs_refines st p st' :
  process_page_fs answers can_save st p = Ok st' ->
  process_page (operator_of answers) st p = Ok st'.
Proof.
  destruct (is_skipped p) eqn:Hs.
  - rewrite (process_page_fs_skip st p Hs), (process_page_skip _ st p Hs). auto.
  - rewrite (process_page_fs_accept st p Hs), (process_page_accept _ st p Hs).
    destruct (py_int (level_to_coerce (level st) p)) as [z|e]; cbn [bind];
      [|discriminate].
    destruct (artifacts_saved can_save (List.length (files st)) (name_in_use p));
      cbn [negb]; [|discriminate].
    destruct (truthy (get_form_field p "PName_")); [auto|].
    destruct (ask_classes_fs answers (List.length (asked st))); cbn [bind];
      [auto|discriminate].
Qed.

Lemma run_fs_refines doc : forall st st',
  run_fs answers can_save st doc = Ok st' ->
  run (operator_of answers) st doc = Ok st'.
Proof.
  induction doc as [|p rest IH]; intros st st' H; simpl in H; simpl;
    [exact H|].
  destruct (process_page_fs answers can_save st p) as [st1|e] eqn:Hp;
    cbn [bind] in H; [|discriminate].
  rewrite (process_page_fs_refines st p st1 Hp). cbn [bind]. apply IH. exact H.
Qed.

(** C5 (as amended).  A stored record holds the integer that [int] made of
    the level handed to it.  Line 184 raises exactly when the page is not
    skipped and that level is not numeric (absent, text that is no integer
    numeral, or a numeral of more than 4300 digits), and the page then raises
    the same exception.  A page raises exactly when it is not skipped and
    either the level is not numeric, or one of its three artifacts cannot be
    saved, or it is a full page and the prompt fails.  An exception is not a
    skip: it ends the page loop whatever pages follow, and the script with
    it, before the appender is reached. *)
Theorem level_coercion (st : state) (p : page) :
  (forall st', process_page_fs answers can_save st p = Ok st' ->
     is_skipped p = false ->
     exists e z,
       entries st' = (entries st ++ [e])%list
       /\ py_int (level_to_coerce (level st) p) = Ok z
       /\ e_level e = z /\ level st' = VInt z)
  /\ ((exists e, reconcile (school st) (level st) p = Raise e) <->
      is_skipped p = false /\ ~ numeric (level_to_coerce (level st) p))
  /\ (forall e, reconcile (school st) (level st) p = Raise e ->
        process_page_fs answers can_save st p = Raise e)
  /\ ((exists e, process_page_fs answers can_save st p = Raise e) <->
      is_skipped p = false
      /\ (~ numeric (level_to_coerce (level st) p)
          \/ artifacts_saved can_save (List.length (files st)) (name_in_use p)
             = false
          \/ (is_prompted p = true
              /\ exists e,
                   ask_classes_fs answers (List.length (asked st)) = Raise e)))
  /\ (forall e rest, process_page_fs answers can_save st p = Raise e ->
        run_fs answers can_save st (p :: rest) = Raise e)
  /\ (forall e doc file, run_fs answers can_save initial_state doc = Raise e ->
        main_fs answers can_save doc file = Raise e).
Proof.
  split; [|split; [|split; [|split; [|split]]]].
  - intros st' Hp Hs.
    apply process_page_fs_refines in Hp.
    destruct (process_page_inv _ st p st' Hp) as [[Hk _]|[_ [z [Hz ->]]]];
      [congruence|].
    eexists. exists z. split; [reflexivity|]. auto.
  - rewrite <- py_int_raises, reconcile_unfold. split.
    + intros [e He]. destruct (is_skipped p); [discriminate|].
      split; [reflexivity|].
      destruct (py_int (level_to_coerce (level st) p)) as [z|e'];
        [discriminate|eauto].
    + intros [-> [e ->]]. exists e. reflexivity.
  - intros e He. unfold process_page_fs. rewrite He. reflexivity.
  - rewrite <- py_int_raises. unfold is_prompted. split.
    + intros [e He]. destruct (is_skipped p) eqn:Hs.
      * rewrite (process_page_fs_skip st p Hs) in He. discriminate.
      * split; [reflexivity|].
        rewrite (process_page_fs_accept st p Hs) in He.
        destruct (py_int (level_to_coerce (level st) p)) as [z|e'];
          [|left; eauto].
        cbn [bind] in He.
        destruct (artifacts_saved can_save (List.length (files st))
                    (name_in_use p)); [|right; left; reflexivity].
        cbn [negb] in He.
        destruct (truthy (get_form_field p "PName_")); [discriminate|].
        destruct (ask_classes_fs answers (List.length (asked st))) as [cs|e'];
          [discriminate|].
        right. right. split; [reflexivity|]. eauto.
    + intros [Hs H]. rewrite (process_page_fs_accept st p Hs).
      destruct (py_int (level_to_coerce (level st) p)) as [z|e'];
        [|eexists; reflexivity].
      cbn [bind]. destruct H as [[e He]|[H|[Hq [e He]]]]; [discriminate| |].
      * rewrite H. eexists. reflexivity.
      * destruct (artifacts_saved can_save (List.length (files st))
                    (name_in_use p)); cbn [negb]; [|eexists; reflexivity].
        rewrite Hs in Hq. cbn [negb andb] in Hq.
        apply negb_true_iff in Hq. rewrite Hq, He. eexists. reflexivity.
  - intros e rest He. simpl. rewrite He. reflexivity.
  - intros e doc file He. unfold main_fs. rewrite He. reflexivity.
Qed.

End ScriptFacts.

Lemma level_coercion_witness :
  is_skipped (page_with_level "+1_0") = false
  /\ exists st',
       process_page_fs wizard_answers all_saved initial_state
         (page_with_level "+1_0") = Ok st'
       /\ exists e,
            entries st' = [e] /\ e_level e = 10%Z /\ level st' = VInt 10.
Proof.
  split; [reflexivity|].
  eexists. split; [vm_compute; reflexivity|].
  destruct (level_coercion wizard_answers all_saved initial_state
              (page_with_level "+1_0")) as [H _].
  destruct (H _ ltac:(vm_compute; reflexivity) eq_refl) as [e [z [He [Hz [Hl Hv]]]]].
  exists e. split; [exact He|].
  assert (E : z = 10%Z) by (vm_compute in Hz; congruence).
  split; congruence.
Defined.

(** C5 (as stated) fails.  The full page [Fire/Ice] holds the level 1, which
    [int] reads, and yet the page raises: its split document would go to
    [spells/Fire/Ice.pdf], in a directory that does not exist.  The full page
    [Magic Missile], level 1, raises when the input is at its end at the
    prompt. *)
Lemma level_coercion_counterexample :
  is_skipped page_fire_ice = false
  /\ level_to_coerce (level initial_state) page_fire_ice = VStr "1"
  /\ py_int (VStr "1") = Ok 1%Z
  /\ flat_output_dirs 0 "spells/Fire/Ice.pdf" = false
  /\ process_page_fs wizard_answers flat_output_dirs initial_state page_fire_ice
     = Raise SaveError
  /\ is_skipped page_magic_missile = false
  /\ level_to_coerce (level initial_state) page_magic_missile = VStr "1"
  /\ process_page_fs no_answers all_saved initial_state page_magic_missile
     = Raise EOFError.
Proof. repeat split; vm_compute; reflexivity. Qed.

(** ** The collection appender *)

Lemma str_app_assoc (a b c : string) : (a ++ b) ++ c = a ++ (b ++ c).
Proof. induction a as [|x a IH]; simpl; [reflexivity|]. rewrite IH. reflexivity. Qed.

Lemma str_app_nil_r (a : string) : a ++ EmptyString = a.
Proof. induction a as [|x a IH]; simpl; [reflexivity|]. rewrite IH. reflexivity. Qed.

Lemma prefix_app (a b : string) :
  String.prefix a b = true <-> exists c, b = a ++ c.
Proof.
  revert b. induction a as [|x a IH]; intros b; simpl.
  - split; [intros _; exists b; reflexivity | destruct b; reflexivity].
  - destruct b as [|y b]; simpl.
    + split; [discriminate | intros [c Hc]; discriminate].
    + destruct (ascii_dec x y) as [<-|Hxy].
      * rewrite IH. split; intros [c Hc]; exists c; congruence.
      * split; [discriminate | intros [c Hc]; congruence].
Qed.

Lemma slice_to_app (pre rest : string) :
  PyStr.slice_to (String.length pre) (pre ++ rest) = pre.
Proof.
  induction pre as [|x pre IH]; simpl.
  - destruct rest; reflexivity.
  - rewrite IH. reflexivity.
Qed.

Lemma slice_from_app (pre rest : string) :
  PyStr.slice_from (String.length pre) (pre ++ rest) = rest.
Proof.
  induction pre as [|x pre IH]; simpl; [destruct rest; reflexivity | exact IH].
Qed.

Lemma occurs_after_nil (sub pre : string) :
  occurs_after sub EmptyString pre -> pre = EmptyString /\ sub = EmptyString.
Proof.
  intros [post H]. destruct pre; [|discriminate].
  split; [reflexivity|]. destruct sub; [reflexivity|discriminate].
Qed.

Lemma occurs_after_cons (sub : string) c s pre :
  occurs_after sub (String c s) pre ->
  (pre = EmptyString /\ String.prefix sub (String c s) = true)
  \/ exists pre', pre = String c pre' /\ occurs_after sub s pre'.
Proof.
  intros [post H]. destruct pre as [|x pre'].
  - left. split; [reflexivity|]. apply prefix_app. exists post. exact H.
  - right. simpl in H. injection H as <- H. exists pre'.
    split; [reflexivity|]. exists post. exact H.
Qed.

(** [rfind] finds the last occurrence, and answers [-1] only when there is
    none. *)
Lemma rfind_from_spec (sub s : string) :
  forall i, (0 <= i)%Z ->
  (PyStr.rfind_from sub s i = (-1)%Z /\ forall pre, ~ occurs_after sub s pre)
  \/ exists pre,
       PyStr.rfind_from sub s i = (i + Z.of_nat (String.length pre))%Z
       /\ occurs_after sub s pre
       /\ forall pre', occurs_after sub s pre' ->
                       String.length pre' <= String.length pre.
Proof.
  induction s as [|c s IH]; intros i Hi; cbn [PyStr.rfind_from].
  - destruct (String.prefix sub EmptyString) eqn:Hp.
    + right. exists EmptyString. simpl. split; [lia|].
      apply prefix_app in Hp. destruct Hp as [post Hpost].
      split; [exists post; exact Hpost|].
      intros pre' H. apply occurs_after_nil in H. destruct H as [-> _]. auto.
    + left. split; [reflexivity|]. intros pre H.
      apply occurs_after_nil in H. destruct H as [_ ->]. discriminate.
  - destruct (IH (i + 1)%Z ltac:(lia)) as [[Hr Hnone]|[pre [Hr [Hocc Hmax]]]].
    + rewrite Hr. cbn [Z.eqb Pos.eqb Z.opp].
      destruct (String.prefix sub (String c s)) eqn:Hp.
      * right. exists EmptyString. simpl. split; [lia|].
        apply prefix_app in Hp. destruct Hp as [post Hpost].
        split; [exists post; exact Hpost|].
        intros pre' H. apply occurs_after_cons in H.
        destruct H as [[-> _]|[p' [_ H]]]; [auto|].
        exfalso. exact (Hnone p' H).
      * left. split; [reflexivity|]. intros pre H.
        apply occurs_after_cons in H.
        destruct H as [[_ H]|[p' [_ H]]]; [congruence|exact (Hnone p' H)].
    + rewrite Hr.
      assert (Hne : ((i + 1 + Z.of_nat (String.length pre) =? -1) = false)%Z)
        by (apply Z.eqb_neq; lia).
      rewrite Hne. right. exists (String c pre). simpl String.length.
      split; [lia|]. split.
      * destruct Hocc as [post Hpost]. exists post. simpl. rewrite <- Hpost.
        reflexivity.
      * intros pre' H. apply occurs_after_cons in H.
        destruct H as [[-> _]|[p' [-> H]]]; simpl; [lia|].
        specialize (Hmax p' H). lia.
Qed.

Lemma occurs_after_same_length (sub s pre1 pre2 : string) :
  occurs_after sub s pre1 -> occurs_after sub s pre2 ->
  String.length pre1 = String.length pre2 -> pre1 = pre2.
Proof.
  intros [post1 H1] [post2 H2] Hlen.
  rewrite <- (slice_to_app pre1 (sub ++ post1)), <- H1.
  rewrite Hlen, H2. apply slice_to_app.
Qed.

Lemma join_lines (sep : string) (lines : list string) :
  lines <> [] ->
  PyStr.join sep lines ++ sep =
  String.concat EmptyString (map (fun l => l ++ sep) lines).
Proof.
  unfold PyStr.join.
  induction lines as [|x rest IH]; intros Hne; [contradiction|].
  destruct rest as [|y rest].
  - simpl. reflexivity.
  - change (String.concat sep (x :: y :: rest))
      with (x ++ sep ++ String.concat sep (y :: rest)).
    change (String.concat EmptyString (map (fun l => l ++ sep) (x :: y :: rest)))
      with ((x ++ sep) ++ EmptyString
            ++ String.concat EmptyString (map (fun l => l ++ sep) (y :: rest))).
    rewrite <- IH by discriminate. simpl.
    rewrite !str_app_assoc. reflexivity.
Qed.

Lemma rfind_last (s sub : string) (n : nat) :
  PyStr.rfind s sub = Z.of_nat n ->
  forall pre, occurs_after sub s pre -> String.length pre <= n.
Proof.
  unfold PyStr.rfind. intros H pre Hocc.
  destruct (rfind_from_spec sub s 0 ltac:(lia)) as [[_ Hnone]|[pre0 [Hr [_ Hmax]]]].
  - exfalso. exact (Hnone pre Hocc).
  - specialize (Hmax pre Hocc). lia.
Qed.



(** What the appender does to an existing file whose text, as read, holds
    the marker. *)
Lemma append_to_existing (entries : list entry) (stored pre post : string) :
  universal_newlines stored = pre ++ "];" ++ post ->
  (forall pre', occurs_after "];" (universal_newlines stored) pre' ->
                String.length pre' <= String.length pre) ->
  append_to_spells_js (Some stored) entries =
    {| writes := [ pre ++ insert_text entries ++ "];" ++ post ];
       printed := [Added (List.length entries)] |}.
Proof.
  intros Hc Hmax. unfold append_to_spells_js, PyStr.rfind.
  destruct (rfind_from_spec "];" (universal_newlines stored) 0 ltac:(lia))
    as [[_ Hnone]|[pre0 [Hr [Hocc Hmax0]]]].
  - exfalso. apply (Hnone pre). exists post. exact Hc.
  - assert (Hpre : occurs_after "];" (universal_newlines stored) pre)
      by (exists post; exact Hc).
    assert (E : pre0 = pre).
    { apply (occurs_after_same_length "];" (universal_newlines stored)); auto.
      apply Nat.le_antisymm; auto. }
    subst pre0. rewrite Hr.
    assert (Hne : ((0 + Z.of_nat (String.length pre) =? -1) = false)%Z)
      by (apply Z.eqb_neq; lia).
    rewrite Hne.
    replace (Z.to_nat (0 + Z.of_nat (String.length pre))) with (String.length pre)
      by lia.
    rewrite Hc, slice_to_app, slice_from_app. reflexivity.
Qed.


Lemma append_to_absent (entries : list entry) :
  append_to_spells_js None entries =
    {| writes := [ empty_collection;
                   "const SPELLS = [" ++ newline ++ insert_text entries
                   ++ "];" ++ newline ];
       printed := [NotFoundCreating; Added (List.length entries)] |}.
Proof.
  unfold append_to_spells_js.
  change (PyStr.rfind empty_collection "];") with 17%Z. reflexivity.
Qed.

Lemma insert_text_lines (entries : list entry) :
  entries <> [] ->
  insert_text entries =
  String.concat EmptyString (map (fun e => js_line e ++ newline) entries).
Proof.
  intros Hne. unfold insert_text. rewrite join_lines.
  - rewrite map_map. reflexivity.
  - destruct entries; [contradiction|discriminate].
Qed.




(** * Further properties *)

(** ** The slug normalizer, continued *)

Ltac ascii_facts c :=
  destruct c as [[|] [|] [|] [|] [|] [|] [|] [|]]; vm_compute;
  intros; repeat split; solve [reflexivity | discriminate | congruence].

Lemma slug_char_fixed c :
  slug_char c = true ->
  slug_keep c = true /\ PyStr.isspace c = false /\ PyStr.lower_char c = c.
Proof. ascii_facts c. Qed.

Lemma lower_space c : PyStr.isspace (PyStr.lower_char c) = PyStr.isspace c.
Proof. ascii_facts c. Qed.

Lemma lower_lower c : PyStr.lower_char (PyStr.lower_char c) = PyStr.lower_char c.
Proof. ascii_facts c. Qed.

Section SlugLists.

Local Open Scope list_scope.

Lemma dropwhile_map (f : ascii -> bool) (g : ascii -> ascii) l :
  (forall c, f (g c) = f c) ->
  PyStr.dropwhile f (map g l) = map g (PyStr.dropwhile f l).
Proof.
  intros H. induction l as [|c l IH]; simpl; [reflexivity|].
  rewrite H. destruct (f c); [exact IH | reflexivity].
Qed.

Lemma dropwhile_idem f l :
  PyStr.dropwhile f (PyStr.dropwhile f l) = PyStr.dropwhile f l.
Proof.
  induction l as [|c l IH]; simpl; [reflexivity|].
  destruct (f c) eqn:E; [exact IH|]. simpl. rewrite E. reflexivity.
Qed.

Lemma dropwhile_incl f l c : In c (PyStr.dropwhile f l) -> In c l.
Proof.
  induction l as [|x l IH]; simpl; [tauto|].
  destruct (f x); [intros H; right; apply IH; exact H | simpl; tauto].
Qed.

Lemma dropwhile_length f l : List.length (PyStr.dropwhile f l) <= List.length l.
Proof.
  induction l as [|x l IH]; simpl; [lia|]. destruct (f x); simpl; lia.
Qed.

Lemma strip_map_lower l :
  PyStr.strip_chars (map PyStr.lower_char l) = map PyStr.lower_char (PyStr.strip_chars l).
Proof.
  unfold PyStr.strip_chars, PyStr.rstrip_chars, PyStr.lstrip_chars.
  rewrite (dropwhile_map _ _ _ lower_space).
  rewrite <- map_rev, (dropwhile_map _ _ _ lower_space), map_rev. reflexivity.
Qed.

Lemma strip_incl l c : In c (PyStr.strip_chars l) -> In c l.
Proof.
  unfold PyStr.strip_chars, PyStr.rstrip_chars, PyStr.lstrip_chars. intros H.
  apply in_rev, dropwhile_incl, in_rev, dropwhile_incl in H. exact H.
Qed.

Lemma strip_length l : List.length (PyStr.strip_chars l) <= List.length l.
Proof.
  unfold PyStr.strip_chars, PyStr.rstrip_chars, PyStr.lstrip_chars.
  rewrite length_rev.
  pose proof (dropwhile_length PyStr.isspace
                (rev (PyStr.dropwhile PyStr.isspace l))) as H1.
  rewrite length_rev in H1.
  pose proof (dropwhile_length PyStr.isspace l). lia.
Qed.

Lemma strip_idem l : PyStr.strip_chars (PyStr.strip_chars l) = PyStr.strip_chars l.
Proof.
  unfold PyStr.strip_chars at 1. unfold PyStr.lstrip_chars at 1.
  assert (H : PyStr.dropwhile PyStr.isspace (PyStr.strip_chars l)
              = PyStr.strip_chars l).
  { unfold PyStr.strip_chars, PyStr.lstrip_chars.
    destruct (PyStr.dropwhile PyStr.isspace l) as [|c m] eqn:E; [reflexivity|].
    assert (Hc : PyStr.isspace c = false).
    { clear -E. induction l as [|x l IH]; simpl in E; [discriminate|].
      destruct (PyStr.isspace x) eqn:Ex; [auto|]. injection E as -> _. exact Ex. }
    destruct (rstrip_keeps_head m c Hc) as [m' ->]. simpl. rewrite Hc. reflexivity. }
  rewrite H. unfold PyStr.strip_chars, PyStr.rstrip_chars.
  rewrite rev_involutive, dropwhile_idem. reflexivity.
Qed.

Lemma strip_no_space l :
  Forall (fun c => PyStr.isspace c = false) l -> PyStr.strip_chars l = l.
Proof.
  intros H. unfold PyStr.strip_chars, PyStr.rstrip_chars, PyStr.lstrip_chars.
  assert (D : forall m, Forall (fun c => PyStr.isspace c = false) m ->
                        PyStr.dropwhile PyStr.isspace m = m).
  { intros m Hm. destruct Hm as [|c m Hc _]; simpl; [reflexivity|].
    rewrite Hc. reflexivity. }
  rewrite (D l H), D, rev_involutive; [reflexivity|].
  apply Forall_rev. exact H.
Qed.

Lemma sub_ws_runs_no_space l :
  Forall (fun c => PyStr.isspace c = false) l -> sub_ws_runs false l = l.
Proof.
  induction 1 as [|c l Hc _ IH]; simpl; [reflexivity|].
  rewrite Hc, IH. reflexivity.
Qed.

Lemma sub_ws_runs_length b l : List.length (sub_ws_runs b l) <= List.length l.
Proof.
  revert b. induction l as [|c l IH]; intros b; simpl; [lia|].
  pose proof (IH true). pose proof (IH false).
  destruct (PyStr.isspace c); [destruct b|]; simpl; lia.
Qed.

Lemma slugify_chars_fixed l :
  Forall (fun c => slug_char c = true) l -> slugify_chars l = l.
Proof.
  intros H. unfold slugify_chars.
  assert (Hs : Forall (fun c => PyStr.isspace c = false) l).
  { eapply Forall_impl; [|exact H]. intros c Hc. apply slug_char_fixed. exact Hc. }
  rewrite (strip_no_space l Hs).
  assert (Hm : map PyStr.lower_char l = l).
  { clear Hs. induction H as [|c l Hc _ IH]; simpl; [reflexivity|].
    rewrite IH. f_equal. apply slug_char_fixed. exact Hc. }
  rewrite Hm.
  assert (Hf : filter slug_keep l = l).
  { clear Hs Hm. induction H as [|c l Hc _ IH]; simpl; [reflexivity|].
    destruct (slug_char_fixed c Hc) as [-> _]. rewrite IH. reflexivity. }
  rewrite Hf. apply sub_ws_runs_no_space. exact Hs.
Qed.

Lemma slugify_chars_length l : List.length (slugify_chars l) <= List.length l.
Proof.
  unfold slugify_chars.
  pose proof (sub_ws_runs_length false
    (filter slug_keep (map PyStr.lower_char (PyStr.strip_chars l)))) as H1.
  pose proof (filter_length_le slug_keep
    (map PyStr.lower_char (PyStr.strip_chars l))) as H2.
  rewrite length_map in H2. pose proof (strip_length l). lia.
Qed.

Lemma string_length_chars s : String.length s = List.length (list_ascii_of_string s).
Proof. induction s as [|c s IH]; simpl; [reflexivity|]. rewrite IH. reflexivity. Qed.

End SlugLists.

(** X1.  Normalizing a slug again changes nothing. *)
Theorem slugify_idempotent (name : string) :
  slugify (slugify name) = slugify name.
Proof.
  unfold slugify. rewrite list_ascii_of_string_of_list_ascii.
  rewrite slugify_chars_fixed; [reflexivity|]. apply slugify_chars_alphabet.
Qed.

(** X2.  The slug does not depend on the case of the letters of the name,
    nor on whitespace around it: lowering or trimming the name beforehand
    gives the same slug. *)
Theorem slugify_ignores_case_and_margin (name : string) :
  slugify (str_lower name) = slugify name
  /\ slugify (PyStr.strip name) = slugify name.
Proof.
  unfold slugify, str_lower, PyStr.strip.
  rewrite !list_ascii_of_string_of_list_ascii. unfold slugify_chars. split.
  - rewrite strip_map_lower, map_map.
    rewrite (map_ext _ _ lower_lower). reflexivity.
  - rewrite strip_idem. reflexivity.
Qed.

(** X3.  A slug is never longer than the name it comes from. *)
Theorem slugify_not_longer (name : string) :
  String.length (slugify name) <= String.length name.
Proof.
  unfold slugify. rewrite !string_length_chars, list_ascii_of_string_of_list_ascii.
  apply slugify_chars_length.
Qed.

(** ** The field resolver, continued *)

Section TrimmedLists.

Local Open Scope list_scope.

Lemma dropwhile_head f l c m : PyStr.dropwhile f l = c :: m -> f c = false.
Proof.
  induction l as [|x l IH]; simpl; [discriminate|].
  destruct (f x) eqn:E; [exact IH|]. intros H. injection H as <- _. exact E.
Qed.

Lemma strip_head_not_space l c :
  hd_error (PyStr.strip_chars l) = Some c -> PyStr.isspace c = false.
Proof.
  unfold PyStr.strip_chars, PyStr.lstrip_chars.
  destruct (PyStr.dropwhile PyStr.isspace l) as [|x m] eqn:E; [discriminate|].
  pose proof (dropwhile_head _ _ _ _ E) as Hx.
  destruct (rstrip_keeps_head m x Hx) as [m' ->]. simpl.
  intros H. injection H as <-. exact Hx.
Qed.

Lemma strip_last_not_space l c :
  hd_error (rev (PyStr.strip_chars l)) = Some c -> PyStr.isspace c = false.
Proof.
  unfold PyStr.strip_chars, PyStr.rstrip_chars. rewrite rev_involutive.
  destruct (PyStr.dropwhile PyStr.isspace (rev (PyStr.lstrip_chars l)))
    as [|x m] eqn:E; [discriminate|].
  simpl. intros H. injection H as <-. exact (dropwhile_head _ _ _ _ E).
Qed.

End TrimmedLists.

Lemma strip_trimmed (s : string) :
  PyStr.strip (PyStr.strip s) = PyStr.strip s
  /\ (forall c, first_char (PyStr.strip s) = Some c -> PyStr.isspace c = false)
  /\ (forall c, last_char (PyStr.strip s) = Some c -> PyStr.isspace c = false).
Proof.
  unfold PyStr.strip, first_char, last_char.
  rewrite !list_ascii_of_string_of_list_ascii, strip_idem.
  split; [reflexivity|]. split.
  - apply strip_head_not_space.
  - apply strip_last_not_space.
Qed.

Lemma scan_fields_app (l1 l2 : list annot) (prefix : string) :
  scan_fields (l1 ++ l2)%list prefix =
  match scan_fields l1 prefix with
  | Some v => Some v
  | None => scan_fields l2 prefix
  end.
Proof.
  induction l1 as [|a l1 IH]; simpl; [reflexivity|].
  destruct (name_matches a prefix); [|exact IH].
  destruct (field_value a); [reflexivity|exact IH].
Qed.

(** X4.  A value the resolver returns is trimmed: trimming it again changes
    nothing, and it neither begins nor ends with whitespace. *)
Theorem get_form_field_trimmed (p : page) (prefix v : string) :
  get_form_field p prefix = Some v ->
  PyStr.strip v = v
  /\ (forall c, first_char v = Some c -> PyStr.isspace c = false)
  /\ (forall c, last_char v = Some c -> PyStr.isspace c = false).
Proof.
  rewrite get_form_field_scan. destruct (Annots p) as [fields|]; [|discriminate].
  intros H. apply scan_fields_some in H.
  destruct H as (_ & _ & _ & val & _ & _ & _ & -> & _).
  apply strip_trimmed.
Qed.

Lemma get_form_field_trimmed_witness :
  get_form_field (page_of [text_field "Name_F00" "  Mage Hand "]) "Name_"
    = Some "Mage Hand"
  /\ PyStr.strip "Mage Hand" = "Mage Hand".
Proof.
  split; [reflexivity|].
  apply (get_form_field_trimmed
           (page_of [text_field "Name_F00" "  Mage Hand "]) "Name_" "Mage Hand").
  reflexivity.
Defined.

(** X5.  Looking a prefix up in two field lists put one after the other
    gives the value found in the first list when there is one, and the value
    found in the second list otherwise: fields added after a match that has
    a value never change the result. *)
Theorem get_form_field_app (l1 l2 : list annot) (prefix : string) :
  get_form_field (page_of (l1 ++ l2)%list) prefix =
  match get_form_field (page_of l1) prefix with
  | Some v => Some v
  | None => get_form_field (page_of l2) prefix
  end.
Proof.
  rewrite !get_form_field_scan. simpl. apply scan_fields_app.
Qed.

Lemma startswith_head (c : ascii) (rest s : string) :
  PyStr.startswith s (String c rest) = true ->
  exists s', s = String c s'.
Proof.
  unfold PyStr.startswith. intros H. apply prefix_app in H.
  destruct H as [t ->]. simpl. eauto.
Qed.

(** X6.  The four prefixes of the page loop do not overlap: a field whose
    identifier starts with one of them starts with no other, so no field
    answers two of the lookups. *)
Theorem field_prefixes_disjoint (a : annot) (x y : string) :
  In x field_prefixes -> In y field_prefixes -> x <> y ->
  name_matches a x = true -> name_matches a y = false.
Proof.
  intros Hx Hy Hxy Mx.
  destruct (name_matches a y) eqn:My; [|reflexivity].
  exfalso. apply Hxy. revert Mx My.
  unfold name_matches. destruct (field_name a) as [[s|n]|]; try discriminate.
  intros Mx My. simpl in Hx, Hy.
  destruct Hx as [<-|[<-|[<-|[<-|[]]]]]; destruct Hy as [<-|[<-|[<-|[<-|[]]]]];
    try reflexivity;
    apply startswith_head in Mx; apply startswith_head in My;
    destruct Mx as [s1 ->]; destruct My as [s2 E]; discriminate.
Qed.

Lemma field_prefixes_disjoint_witness :
  In "PName_" field_prefixes /\ In "Name_" field_prefixes
  /\ name_matches (text_field "PName_F00" "Light") "PName_" = true
  /\ name_matches (text_field "PName_F00" "Light") "Name_" = false.
Proof.
  split; [simpl; auto|]. split; [simpl; auto|]. split; [reflexivity|].
  apply (field_prefixes_disjoint (text_field "PName_F00" "Light") "PName_" "Name_").
  - simpl. auto.
  - simpl. auto.
  - discriminate.
  - reflexivity.
Defined.

(** ** Numerals, continued: printing and reading back *)

Section Decimals.

Local Open Scope list_scope.

Lemma uint_chars_digits d : Forall (fun c => PyStr.is_digit c = true) (uint_chars d).
Proof.
  unfold uint_chars. induction d; simpl; constructor; try reflexivity; assumption.
Qed.

Lemma uint_chars_nonnil d : d <> Decimal.Nil -> uint_chars d <> [].
Proof. destruct d; intros H; [contradiction|..]; discriminate. Qed.

Lemma digit_not_space c : PyStr.is_digit c = true -> PyStr.isspace c = false.
Proof. by_ascii_cases c. Qed.

(** Reading a run of digits: the scan and the fold agree. *)
Lemma scan_digits_fold l :
  Forall (fun c => PyStr.is_digit c = true) l ->
  forall acc,
    scan_digits AfterDigit acc l
    = Some (fold_left (fun a c => 10 * a + digit_value c)%Z l acc).
Proof.
  induction 1 as [|c l Hc _ IH]; intros acc; simpl; [reflexivity|].
  rewrite Hc. apply IH.
Qed.

Lemma scan_digits_any_pos pos acc c l :
  PyStr.is_digit c = true ->
  scan_digits pos acc (c :: l) = scan_digits AfterDigit acc (c :: l).
Proof. intros H. simpl. rewrite H. reflexivity. Qed.

Lemma fold_uint_pos d (acc : positive) :
  fold_left (fun a c => 10 * a + digit_value c)%Z (uint_chars d) (Z.pos acc)
  = Z.pos (Pos.of_uint_acc d acc).
Proof.
  revert acc. unfold uint_chars.
  induction d; intros acc;
    cbn [NilEmpty.string_of_uint list_ascii_of_string fold_left Pos.of_uint_acc];
    try reflexivity;
    rewrite <- IHd; f_equal;
    match goal with
    | |- context [digit_value ?c] =>
        let v := eval vm_compute in (digit_value c) in
        change (digit_value c) with v
    end; lia.
Qed.

Lemma fold_uint_zero d :
  fold_left (fun a c => 10 * a + digit_value c)%Z (uint_chars d) 0%Z
  = Z.of_N (Pos.of_uint d).
Proof.
  induction d;
    try (unfold uint_chars;
         cbn [NilEmpty.string_of_uint list_ascii_of_string fold_left Pos.of_uint];
         match goal with
         | |- fold_left _ _ ?a = Z.of_N (N.pos (Pos.of_uint_acc _ ?k)) =>
             change a with (Z.pos k); apply fold_uint_pos
         end).
  - reflexivity.
  - exact IHd.
Qed.

Lemma int_of_digits_pos p : int_of_digits (uint_chars (Pos.to_uint p)) = Z.pos p.
Proof.
  unfold int_of_digits. rewrite fold_uint_zero, DecimalPos.Unsigned.of_to.
  reflexivity.
Qed.

Lemma scan_uint_pos p :
  scan_digits AtStart 0 (uint_chars (Pos.to_uint p)) = Some (Z.pos p).
Proof.
  pose proof (uint_chars_digits (Pos.to_uint p)) as Hd.
  pose proof (uint_chars_nonnil _ (DecimalPos.Unsigned.to_uint_nonnil p)) as Hn.
  pose proof (int_of_digits_pos p) as Hv. unfold int_of_digits in Hv.
  destruct (uint_chars (Pos.to_uint p)) as [|c l]; [contradiction|].
  rewrite scan_digits_any_pos by (inversion Hd; assumption).
  rewrite (scan_digits_fold _ Hd), Hv. reflexivity.
Qed.

Lemma str_of_int_pos p :
  list_ascii_of_string (PyStr.str_of_int (Z.pos p)) = uint_chars (Pos.to_uint p).
Proof.
  unfold PyStr.str_of_int, uint_chars. simpl.
  pose proof (DecimalPos.Unsigned.to_uint_nonnil p) as Hn.
  destruct (Pos.to_uint p); [contradiction|..]; reflexivity.
Qed.

Lemma str_of_int_neg p :
  list_ascii_of_string (PyStr.str_of_int (Z.neg p))
  = "-"%char :: uint_chars (Pos.to_uint p).
Proof.
  unfold PyStr.str_of_int, uint_chars. simpl.
  pose proof (DecimalPos.Unsigned.to_uint_nonnil p) as Hn.
  destruct (Pos.to_uint p); [contradiction|..]; reflexivity.
Qed.

Lemma str_of_int_no_space z :
  Forall (fun c => PyStr.isspace c = false)
    (list_ascii_of_string (PyStr.str_of_int z)).
Proof.
  assert (H : forall d, Forall (fun c => PyStr.isspace c = false) (uint_chars d)).
  { intros d. eapply Forall_impl; [|apply uint_chars_digits].
    intros c. apply digit_not_space. }
  destruct z as [|p|p].
  - repeat constructor.
  - rewrite str_of_int_pos. apply H.
  - rewrite str_of_int_neg. constructor; [reflexivity|apply H].
Qed.

Lemma int_strip_no_space l :
  Forall (fun c => PyStr.isspace c = false) l -> int_strip l = l.
Proof.
  intros H. unfold int_strip.
  assert (D : forall m, Forall (fun c => PyStr.isspace c = false) m ->
                        PyStr.dropwhile int_space m = m).
  { intros m Hm. destruct Hm as [|c m Hc _]; simpl; [reflexivity|].
    unfold int_space. rewrite Hc. reflexivity. }
  rewrite (D l H), D, rev_involutive; [reflexivity|].
  apply Forall_rev. exact H.
Qed.

Lemma count_digits_all l :
  Forall (fun c => PyStr.is_digit c = true) l ->
  count_digits l = Z.of_nat (List.length l).
Proof.
  intros H. unfold count_digits. f_equal. f_equal.
  induction H as [|c l Hc _ IH]; simpl; [reflexivity|].
  rewrite Hc, IH. reflexivity.
Qed.

Lemma digit_value_range c :
  PyStr.is_digit c = true -> (0 <= digit_value c <= 9)%Z.
Proof.
  destruct c as [[|] [|] [|] [|] [|] [|] [|] [|]]; vm_compute;
    intros H; try discriminate H; split; discriminate.
Qed.

(** A run of digits read after [acc] is worth at least [acc] shifted by the
    length of the run. *)
Lemma fold_digits_lower l :
  Forall (fun c => PyStr.is_digit c = true) l ->
  forall acc, (0 <= acc)%Z ->
    (acc * 10 ^ Z.of_nat (List.length l)
     <= fold_left (fun a c => 10 * a + digit_value c) l acc)%Z.
Proof.
  induction 1 as [|c l Hc _ IH]; intros acc Hacc.
  - simpl. lia.
  - cbn [fold_left List.length]. rewrite Nat2Z.inj_succ, Z.pow_succ_r by lia.
    pose proof (digit_value_range c Hc) as Hd.
    specialize (IH (10 * acc + digit_value c)%Z ltac:(lia)).
    eapply Z.le_trans; [|exact IH].
    assert (Hp : (0 <= 10 ^ Z.of_nat (List.length l))%Z)
      by (apply Z.pow_nonneg; lia).
    rewrite Z.mul_assoc. apply Z.mul_le_mono_nonneg_r; [exact Hp|lia].
Qed.

(** The numeral of a positive integer starts with a digit other than 0. *)
Lemma to_uint_head p :
  exists c l,
    uint_chars (Pos.to_uint p) = c :: l
    /\ PyStr.is_digit c = true /\ (1 <= digit_value c)%Z.
Proof.
  assert (Hu : Decimal.unorm (Pos.to_uint p) = Pos.to_uint p).
  { rewrite <- DecimalPos.Unsigned.to_of, DecimalPos.Unsigned.of_to.
    reflexivity. }
  pose proof (DecimalPos.Unsigned.to_uint_nonnil p) as Hn.
  pose proof (DecimalPos.Unsigned.to_uint_nonzero p) as Hz.
  destruct (Pos.to_uint p) as [|d|d|d|d|d|d|d|d|d|d]; [contradiction|..];
    try (eexists; eexists; split; [reflexivity|];
         split; [reflexivity|vm_compute; discriminate]).
  exfalso. unfold Decimal.unorm in Hu. rewrite DecimalFacts.nzhead_D0 in Hu.
  destruct (Decimal.nzhead d) eqn:E;
    try (exact (DecimalFacts.nzhead_nonzero d d (eq_trans E Hu))).
  apply Hz. symmetry. exact Hu.
Qed.

(** A positive integer below the n-th power of ten prints with at most n
    digits. *)
Lemma pos_digits_bound p n :
  (0 <= n)%Z -> (Z.pos p < 10 ^ n)%Z ->
  (Z.of_nat (List.length (uint_chars (Pos.to_uint p))) <= n)%Z.
Proof.
  intros Hn Hp.
  pose proof (uint_chars_digits (Pos.to_uint p)) as Hd.
  pose proof (int_of_digits_pos p) as Hv. unfold int_of_digits in Hv.
  destruct (to_uint_head p) as [c [l [E [Hc H1]]]]. rewrite E in *.
  inversion Hd as [|c' l' _ Hl]; subst.
  cbn [fold_left List.length] in *.
  pose proof (fold_digits_lower l Hl (10 * 0 + digit_value c)%Z ltac:(lia)) as Hlow.
  rewrite Hv in Hlow.
  destruct (Z_le_gt_dec (Z.of_nat (S (List.length l))) n) as [Hle|Hgt];
    [exact Hle|exfalso].
  assert (Hpow : (10 ^ n <= 10 ^ Z.of_nat (List.length l))%Z)
    by (apply Z.pow_le_mono_r; lia).
  assert (Hone : (1 * 10 ^ Z.of_nat (List.length l)
                  <= (10 * 0 + digit_value c) * 10 ^ Z.of_nat (List.length l))%Z).
  { apply Z.mul_le_mono_nonneg_r; [apply Z.pow_nonneg; lia|lia]. }
  lia.
Qed.

Lemma printed_digits_bound p :
  printable (Z.pos p) ->
  (Z.of_nat (List.length (uint_chars (Pos.to_uint p))) <= int_max_str_digits)%Z.
Proof.
  intros H. apply pos_digits_bound; [discriminate|exact H].
Qed.

(** [int] reads the numeral [str] printed. *)
Lemma int_of_printed z :
  printable z -> int_of_str (PyStr.str_of_int z) = Some z.
Proof.
  intros Hz. unfold int_of_str, int_of_chars.
  rewrite (int_strip_no_space _ (str_of_int_no_space z)). cbv zeta.
  destruct z as [|p|p].
  - reflexivity.
  - rewrite str_of_int_pos.
    pose proof (uint_chars_digits (Pos.to_uint p)) as Hd.
    pose proof (scan_uint_pos p) as Hs.
    pose proof (printed_digits_bound p Hz) as Hb.
    rewrite (count_digits_all _ Hd).
    apply Z.ltb_ge in Hb. rewrite Hb.
    destruct (uint_chars (Pos.to_uint p)) as [|c l]; [discriminate|].
    inversion Hd as [|c' l' Hc _]; subst.
    unfold int_body.
    destruct (digit_not_sign c Hc) as [-> ->]. exact Hs.
  - rewrite str_of_int_neg.
    pose proof (uint_chars_digits (Pos.to_uint p)) as Hd.
    pose proof (printed_digits_bound p Hz) as Hb.
    assert (Hcnt : count_digits ("-"%char :: uint_chars (Pos.to_uint p))
                   = Z.of_nat (List.length (uint_chars (Pos.to_uint p)))).
    { rewrite <- (count_digits_all _ Hd). reflexivity. }
    rewrite Hcnt. apply Z.ltb_ge in Hb. rewrite Hb.
    unfold int_body. change (Ascii.eqb "-" "+") with false.
    change (Ascii.eqb "-" "-") with true. cbv iota.
    rewrite scan_uint_pos. reflexivity.
Qed.

End Decimals.

(** X7.  Printing an integer that [str] prints, one of at most 4300
    digits, and reading the text back with [int] gives the integer again:
    the level written into a record's line is a numeral of that level. *)
Theorem int_of_printed_int (z : Z) :
  printable z -> py_int (VStr (PyStr.str_of_int z)) = Ok z.
Proof.
  intros Hz. cbn [py_int]. rewrite (int_of_printed z Hz). reflexivity.
Qed.

Lemma int_of_printed_int_witness :
  printable (-12)
  /\ PyStr.str_of_int (-12) = "-12"
  /\ py_int (VStr "-12") = Ok (-12)%Z.
Proof.
  assert (H : printable (-12)) by (vm_compute; reflexivity).
  split; [exact H|]. split; [reflexivity|].
  exact (int_of_printed_int (-12) H).
Defined.

(** ** The class prompt *)

Section Prompt.

Local Open Scope list_scope.

Lemma select_classes_known indices :
  Forall (fun c => In c CLASSES) (select_classes indices).
Proof.
  induction indices as [|idx_str rest IH]; cbn [select_classes]; [constructor|].
  destruct ((0 <=? int_of_digits idx_str - 1)%Z
            && (int_of_digits idx_str - 1 <? Z.of_nat (List.length CLASSES))%Z)
    eqn:E; [|exact IH].
  constructor; [|exact IH].
  apply andb_true_iff in E. destruct E as [E1 E2].
  apply Z.leb_le in E1. apply Z.ltb_lt in E2.
  apply nth_In. lia.
Qed.

Lemma findall_no_digit l :
  (forall c, In c l -> PyStr.is_digit c = false) -> findall_digits [] l = [].
Proof.
  induction l as [|c l IH]; intros H; simpl; [reflexivity|].
  rewrite (H c (or_introl eq_refl)). apply IH.
  intros c' Hc'. apply H. right. exact Hc'.
Qed.

Lemma findall_all_digits l :
  Forall (fun c => PyStr.is_digit c = true) l ->
  forall cur,
    findall_digits cur l =
    match rev cur ++ l with
    | [] => []
    | m => [m]
    end.
Proof.
  induction 1 as [|c l Hc _ IH]; intros cur; simpl.
  - rewrite app_nil_r. destruct cur as [|x cur]; [reflexivity|].
    simpl. destruct (rev cur ++ [x]) eqn:E; [|reflexivity].
    destruct (rev cur); discriminate.
  - rewrite Hc, IH. simpl. rewrite <- app_assoc. reflexivity.
Qed.

End Prompt.

Lemma strip_no_space_str (s : string) :
  Forall (fun c => PyStr.isspace c = false) (list_ascii_of_string s) ->
  PyStr.strip s = s.
Proof.
  intros H. unfold PyStr.strip. rewrite (strip_no_space _ H).
  apply string_of_list_ascii_of_string.
Qed.

(** X8.  Whatever the operator types, every class the prompt returns is one
    of the thirteen known classes. *)
Theorem ask_classes_known (typed : string) :
  Forall (fun c => In c CLASSES) (ask_classes typed).
Proof.
  unfold ask_classes.
  destruct (String.eqb (PyStr.strip typed) EmptyString); [constructor|].
  apply select_classes_known.
Qed.

(** X9.  An answer without a decimal digit, the empty answer included,
    selects no class. *)
Theorem ask_classes_no_digit (typed : string) :
  no_digit typed -> ask_classes typed = [].
Proof.
  intros H. unfold ask_classes.
  destruct (String.eqb (PyStr.strip typed) EmptyString); [reflexivity|].
  rewrite findall_no_digit; [reflexivity|].
  intros c Hc. apply H. unfold PyStr.strip in Hc.
  rewrite list_ascii_of_string_of_list_ascii in Hc.
  apply strip_incl in Hc. exact Hc.
Qed.

Lemma ask_classes_no_digit_witness :
  no_digit "none, thanks" /\ ask_classes "none, thanks" = [].
Proof.
  assert (H : no_digit "none, thanks").
  { intros c Hc. simpl in Hc.
    repeat (destruct Hc as [<-|Hc]; [reflexivity|]). destruct Hc. }
  split; [exact H|]. apply (ask_classes_no_digit "none, thanks" H).
Defined.

Lemma ask_classes_printed (z : Z) :
  ask_classes (PyStr.str_of_int z) =
  if ((1 <=? Z.abs z) && (Z.abs z <=? 13))%Z
  then [nth (Z.to_nat (Z.abs z - 1)) CLASSES EmptyString]
  else [].
Proof.
  unfold ask_classes.
  rewrite (strip_no_space_str _ (str_of_int_no_space z)).
  destruct z as [|p|p]; [reflexivity| |].
  - assert (E : String.eqb (PyStr.str_of_int (Z.pos p)) EmptyString = false).
    { apply String.eqb_neq. intros E.
      apply (f_equal list_ascii_of_string) in E. rewrite str_of_int_pos in E.
      exact (uint_chars_nonnil _ (DecimalPos.Unsigned.to_uint_nonnil p) E). }
    rewrite E, str_of_int_pos.
    rewrite (findall_all_digits _ (uint_chars_digits _)). simpl rev. simpl app.
    pose proof (uint_chars_nonnil _ (DecimalPos.Unsigned.to_uint_nonnil p)) as Hn.
    pose proof (int_of_digits_pos p) as Hv.
    destruct (uint_chars (Pos.to_uint p)) as [|c l]; [contradiction|].
    cbn [select_classes]. rewrite Hv. cbn [Z.abs].
    change (Z.of_nat (List.length CLASSES)) with 13%Z.
    replace ((0 <=? Z.pos p - 1)%Z) with ((1 <=? Z.pos p)%Z)
      by (apply eq_true_iff_eq; rewrite !Z.leb_le; lia).
    replace ((Z.pos p - 1 <? 13)%Z) with ((Z.pos p <=? 13)%Z)
      by (apply eq_true_iff_eq; rewrite Z.leb_le, Z.ltb_lt; lia).
    destruct ((1 <=? Z.pos p)%Z && (Z.pos p <=? 13)%Z); reflexivity.
  - assert (E : String.eqb (PyStr.str_of_int (Z.neg p)) EmptyString = false).
    { apply String.eqb_neq. intros E.
      apply (f_equal list_ascii_of_string) in E. rewrite str_of_int_neg in E.
      discriminate. }
    rewrite E, str_of_int_neg. cbn [findall_digits].
    change (PyStr.is_digit "-") with false. cbv iota.
    rewrite (findall_all_digits _ (uint_chars_digits _)). simpl rev. simpl app.
    pose proof (uint_chars_nonnil _ (DecimalPos.Unsigned.to_uint_nonnil p)) as Hn.
    pose proof (int_of_digits_pos p) as Hv.
    destruct (uint_chars (Pos.to_uint p)) as [|c l]; [contradiction|].
    cbn [select_classes]. rewrite Hv. cbn [Z.abs].
    change (Z.of_nat (List.length CLASSES)) with 13%Z.
    replace ((0 <=? Z.pos p - 1)%Z) with ((1 <=? Z.pos p)%Z)
      by (apply eq_true_iff_eq; rewrite !Z.leb_le; lia).
    replace ((Z.pos p - 1 <? 13)%Z) with ((Z.pos p <=? 13)%Z)
      by (apply eq_true_iff_eq; rewrite Z.leb_le, Z.ltb_lt; lia).
    destruct ((1 <=? Z.pos p)%Z && (Z.pos p <=? 13)%Z); reflexivity.
Qed.

(** The numeral [str] printed holds no run of more than 4300 digits. *)
Lemma printed_answer_not_too_long (z : Z) :
  printable z -> answer_too_long (PyStr.str_of_int z) = false.
Proof.
  intros Hz. unfold answer_too_long.
  rewrite (strip_no_space_str _ (str_of_int_no_space z)).
  destruct z as [|p|p]; [reflexivity| |].
  - rewrite str_of_int_pos.
    rewrite (findall_all_digits _ (uint_chars_digits _)). simpl rev. simpl app.
    pose proof (printed_digits_bound p Hz) as Hb. apply Z.ltb_ge in Hb.
    destruct (uint_chars (Pos.to_uint p)) as [|c l]; [reflexivity|].
    cbn [existsb]. rewrite Hb. reflexivity.
  - rewrite str_of_int_neg. cbn [findall_digits].
    change (PyStr.is_digit "-") with false. cbv iota.
    rewrite (findall_all_digits _ (uint_chars_digits _)). simpl rev. simpl app.
    pose proof (printed_digits_bound p Hz) as Hb. apply Z.ltb_ge in Hb.
    destruct (uint_chars (Pos.to_uint p)) as [|c l]; [reflexivity|].
    cbn [existsb]. rewrite Hb. reflexivity.
Qed.

(** X10.  Typing one integer of at most 4300 digits at the prompt selects
    the class at that position of the menu, counted from one, when the
    position is between 1 and 13, and nothing otherwise; a minus sign in
    front is ignored.  The prompt does not raise. *)
Theorem ask_classes_one_number (answers : nat -> option string) (k : nat)
    (z : Z) :
  printable z -> answers k = Some (PyStr.str_of_int z) ->
  ask_classes_fs answers k =
  Ok (if ((1 <=? Z.abs z) && (Z.abs z <=? 13))%Z
      then [nth (Z.to_nat (Z.abs z - 1)) CLASSES EmptyString]
      else []).
Proof.
  intros Hz Hk. unfold ask_classes_fs.
  rewrite Hk, (printed_answer_not_too_long z Hz), ask_classes_printed.
  reflexivity.
Qed.

Lemma ask_classes_one_number_witness :
  printable (-12)
  /\ (fun _ : nat => Some "-12") 0 = Some (PyStr.str_of_int (-12))
  /\ ask_classes_fs (fun _ => Some "-12") 0 = Ok ["Wizard"].
Proof.
  assert (H : printable (-12)) by (vm_compute; reflexivity).
  split; [exact H|]. split; [reflexivity|].
  exact (ask_classes_one_number (fun _ => Some "-12") 0 (-12) H eq_refl).
Defined.

Example ask_classes_examples :
  ask_classes " 1,2 13 14 0 007" = ["Barbarian"; "Bard"; "Artificer"; "Paladin"]
  /\ ask_classes "12 12" = ["Wizard"; "Wizard"]
  /\ ask_classes "   " = [].
Proof. repeat split; reflexivity. Qed.

(** ** The collection appender, continued *)

Lemma str_length_app (a b : string) :
  String.length (a ++ b) = String.length a + String.length b.
Proof. induction a as [|x a IH]; simpl; [reflexivity|]. rewrite IH. reflexivity. Qed.

(** Two ways of cutting one string: the longer head extends the shorter. *)
Lemma str_app_split (a b c d : string) :
  a ++ b = c ++ d -> String.length a <= String.length c ->
  exists x, c = a ++ x /\ b = x ++ d.
Proof.
  revert c. induction a as [|y a IH]; intros c H Hlen; simpl in *.
  - exists c. auto.
  - destruct c as [|z c]; simpl in *; [lia|].
    injection H as <- H.
    destruct (IH c H ltac:(lia)) as [x [-> ->]]. exists x. auto.
Qed.

(** Inserting text in front of the last marker leaves it the last one. *)
Lemma last_marker_after_insert (pre post text : string) :
  (forall pre', occurs_after "];" (pre ++ "];" ++ post) pre' ->
                String.length pre' <= String.length pre) ->
  forall pre', occurs_after "];" ((pre ++ text) ++ "];" ++ post) pre' ->
               String.length pre' <= String.length (pre ++ text).
Proof.
  intros Hmax pre' [post' H].
  destruct (Nat.le_gt_cases (String.length pre') (String.length (pre ++ text)))
    as [Hle|Hgt]; [exact Hle|].
  destruct (str_app_split (pre ++ text) ("];" ++ post) pre' ("];" ++ post') H
              ltac:(lia)) as [x [-> Hx]].
  assert (Hocc : occurs_after "];" (pre ++ "];" ++ post) (pre ++ x)).
  { exists post'. rewrite Hx, str_app_assoc. reflexivity. }
  specialize (Hmax _ Hocc).
  rewrite !str_length_app in *. lia.
Qed.

Lemma insert_text_app (es1 es2 : list entry) :
  es1 <> [] -> es2 <> [] ->
  insert_text (es1 ++ es2)%list = insert_text es1 ++ insert_text es2.
Proof.
  intros H1 H2. unfold insert_text.
  rewrite !join_lines.
  - rewrite map_app, map_app. 
    generalize (map (fun l => l ++ newline) (map js_line es1)) as l1.
    generalize (map (fun l => l ++ newline) (map js_line es2)) as l2.
    intros l2 l1. induction l1 as [|x l1 IH]; [reflexivity|].
    destruct l1 as [|y l1].
    + simpl. destruct l2; [simpl; rewrite str_app_nil_r|]; reflexivity.
    + change (String.concat EmptyString ((x :: y :: l1) ++ l2)%list)
        with (x ++ EmptyString ++ String.concat EmptyString ((y :: l1) ++ l2)%list).
      rewrite IH. simpl. rewrite !str_app_assoc. reflexivity.
  - destruct es2; [contradiction|discriminate].
  - destruct es1; [contradiction|discriminate].
  - destruct es1; [contradiction|discriminate].
Qed.

(** What [read_text] returns holds no carriage return. *)
Lemma universal_newlines_clean (s : string) : no_cr (universal_newlines s) = true.
Proof.
  assert (G : forall n s, String.length s <= n -> no_cr (universal_newlines s) = true).
  { induction n as [|n IH]; intros [|c t] Hlen; simpl in Hlen;
      try reflexivity; try lia.
    cbn [universal_newlines].
    destruct (Ascii.eqb c "013"%char) eqn:Ec.
    - cbn [no_cr]. change (Ascii.eqb "010" "013") with false. cbn [negb andb].
      destruct t as [|c' t']; [reflexivity|].
      destruct (Ascii.eqb c' "010"%char).
      + apply IH. simpl in Hlen. lia.
      + apply IH. lia.
    - cbn [no_cr]. rewrite Ec. cbn [negb andb]. apply IH. lia. }
  apply (G (String.length s)). lia.
Qed.

Lemma no_cr_app (a b : string) : no_cr (a ++ b) = no_cr a && no_cr b.
Proof.
  induction a as [|c a IH]; simpl; [reflexivity|].
  rewrite IH, andb_assoc. reflexivity.
Qed.

(** A text without a carriage return is read back as it was handed to
    [write_text], whichever of the two line separators stored it. *)
Lemma read_back (linesep text : string) :
  linesep = newline \/ linesep = crlf ->
  no_cr text = true ->
  universal_newlines (write_newlines linesep text) = text.
Proof.
  intros Hsep. induction text as [|c t IH]; [reflexivity|].
  cbn [no_cr write_newlines]. intros H.
  apply andb_true_iff in H. destruct H as [Hc Ht]. apply negb_true_iff in Hc.
  specialize (IH Ht).
  destruct (Ascii.eqb c "010"%char) eqn:Elf.
  - apply Ascii.eqb_eq in Elf. subst c.
    destruct Hsep as [->| ->].
    + change (newline ++ write_newlines newline t)
        with (String "010"%char (write_newlines newline t)).
      cbn [universal_newlines]. change (Ascii.eqb "010" "013") with false.
      cbv iota. rewrite IH. reflexivity.
    + change (crlf ++ write_newlines crlf t)
        with (String "013"%char (String "010"%char (write_newlines crlf t))).
      cbn [universal_newlines]. change (Ascii.eqb "013" "013") with true.
      change (Ascii.eqb "010" "010") with true. cbv iota.
      rewrite IH. reflexivity.
  - cbn [universal_newlines]. rewrite Hc, IH. reflexivity.
Qed.


(** X12.  Appending one batch and then another to the file the first call
    left writes the same content as appending the two batches at once, when
    the lines of the first batch hold no carriage return: the records of
    earlier calls stay where they are, in order, and the new ones follow
    them in front of the marker.  [stored] is the file before the first
    call, and the file between the calls is the text of the first call as
    [write_text] stores it, with either line separator. *)
Theorem appender_calls_compose (es1 es2 : list entry)
    (stored pre post linesep : string) :
  universal_newlines stored = pre ++ "];" ++ post ->
  (forall pre', occurs_after "];" (universal_newlines stored) pre' ->
                String.length pre' <= String.length pre) ->
  es1 <> [] -> es2 <> [] ->
  Forall (fun e => printable (e_level e)) (es1 ++ es2)%list ->
  no_cr (insert_text es1) = true ->
  linesep = newline \/ linesep = crlf ->
  exists c1,
    writes (append_to_spells_js (Some stored) es1) = [c1]
    /\ writes (append_to_spells_js (Some (write_newlines linesep c1)) es2)
       = [pre ++ insert_text es1 ++ insert_text es2 ++ "];" ++ post]
    /\ writes (append_to_spells_js (Some (write_newlines linesep c1)) es2)
       = writes (append_to_spells_js (Some stored) (es1 ++ es2)%list).
Proof.
  intros Hc Hmax H1 H2 _ Hcr Hsep.
  exists (pre ++ insert_text es1 ++ "];" ++ post).
  rewrite (append_to_existing es1 stored pre post Hc Hmax).
  rewrite (append_to_existing (es1 ++ es2)%list stored pre post Hc Hmax).
  split; [reflexivity|].
  assert (Hclean : no_cr (pre ++ insert_text es1 ++ "];" ++ post) = true).
  { pose proof (universal_newlines_clean stored) as Hs. rewrite Hc in Hs.
    rewrite !no_cr_app in Hs. rewrite !no_cr_app, Hcr.
    apply andb_true_iff in Hs. destruct Hs as [-> Hs].
    apply andb_true_iff in Hs. destruct Hs as [-> ->]. reflexivity. }
  assert (Hread : universal_newlines
                    (write_newlines linesep (pre ++ insert_text es1 ++ "];" ++ post))
                  = (pre ++ insert_text es1) ++ "];" ++ post).
  { rewrite (read_back linesep _ Hsep Hclean), str_app_assoc. reflexivity. }
  assert (E : append_to_spells_js
                (Some (write_newlines linesep (pre ++ insert_text es1 ++ "];" ++ post)))
                es2
              = {| writes := [ (pre ++ insert_text es1) ++ insert_text es2
                               ++ "];" ++ post ];
                   printed := [Added (List.length es2)] |}).
  { apply append_to_existing.
    - exact Hread.
    - rewrite Hread. apply last_marker_after_insert.
      rewrite <- Hc. exact Hmax. }
  rewrite E. simpl writes. rewrite insert_text_app by assumption.
  rewrite !str_app_assoc. auto.
Qed.

Lemma appender_calls_compose_witness :
  Forall (fun e => printable (e_level e)) [record_magic_missile; record_light]
  /\ no_cr (insert_text [record_magic_missile]) = true
  /\ exists c1,
       writes (append_to_spells_js (Some crlf_collection) [record_magic_missile])
         = [c1]
       /\ writes (append_to_spells_js (Some (write_newlines crlf c1)) [record_light])
          = [ ("const SPELLS = [" ++ newline)
              ++ insert_text [record_magic_missile] ++ insert_text [record_light]
              ++ "];" ++ newline ]
       /\ writes (append_to_spells_js (Some (write_newlines crlf c1)) [record_light])
          = writes (append_to_spells_js (Some crlf_collection)
                      [record_magic_missile; record_light]).
Proof.
  assert (Hp : Forall (fun e => printable (e_level e))
                 [record_magic_missile; record_light])
    by (repeat constructor; vm_compute; reflexivity).
  split; [exact Hp|]. split; [vm_compute; reflexivity|].
  apply (appender_calls_compose [record_magic_missile] [record_light]
           crlf_collection ("const SPELLS = [" ++ newline) newline crlf).
  - reflexivity.
  - apply (rfind_last (universal_newlines crlf_collection) "];" 17). reflexivity.
  - discriminate.
  - discriminate.
  - exact Hp.
  - vm_compute. reflexivity.
  - right. reflexivity.
Defined.

(** ** The page loop, continued *)

Lemma str_or_nonempty (a : option string) (b : string) :
  b <> EmptyString -> str_or a b <> EmptyString.
Proof.
  intros Hb. unfold str_or. destruct a as [s|]; [|exact Hb].
  destruct (String.eqb s EmptyString) eqn:E; [exact Hb|].
  apply String.eqb_neq. exact E.
Qed.


Section PageLoopAccounts.

Variable operator : nat -> string.

Local Open Scope list_scope.

Lemma run_accounts doc : forall st st',
  run operator st doc = Ok st' ->
  skipped st' = skipped st + List.length (filter is_skipped doc)
  /\ map e_name (entries st')
     = map e_name (entries st)
       ++ map name_in_use (filter (fun p => negb (is_skipped p)) doc)
  /\ asked st'
     = asked st ++ map (fun p => fmt (name_in_use p)) (filter is_prompted doc).
Proof.
  induction doc as [|p rest IH]; intros st st' H; simpl in H.
  - injection H as <-. simpl. rewrite !app_nil_r. auto.
  - destruct (process_page operator st p) as [st1|e] eqn:Hp; simpl in H;
      [|discriminate].
    destruct (IH st1 st' H) as [Hs [He Ha]]. rewrite Hs, He, Ha.
    cbn [filter]. unfold is_prompted at 2.
    destruct (process_page_inv operator st p st1 Hp) as [[Hk _]|[Hk [z [_ ->]]]].
    + rewrite (process_page_skip operator st p Hk) in Hp. injection Hp as <-.
      rewrite Hk. simpl. split; [lia|]. auto.
    + rewrite Hk. unfold accepted_state. cbn [skipped entries asked negb andb].
      split; [reflexivity|]. split.
      * rewrite map_app, <- app_assoc. reflexivity.
      * destruct (truthy (get_form_field p "PName_")); cbn [negb];
          [reflexivity|]. rewrite <- app_assoc. reflexivity.
Qed.

(** X13.  After a run that does not raise, every page was either skipped
    or stored: the skip counter is the number of pages that fail the test
    of line 179, and the records are those of the other pages, one each, in
    page order, under the name the page resolved. *)
Theorem run_counts_pages (doc : list page) (st : state) :
  run operator initial_state doc = Ok st ->
  skipped st = List.length (filter is_skipped doc)
  /\ map e_name (entries st)
     = map name_in_use (filter (fun p => negb (is_skipped p)) doc)
  /\ List.length (entries st) + skipped st = List.length doc.
Proof.
  intros H. destruct (run_accounts doc _ _ H) as [Hs [He _]].
  simpl in Hs, He. split; [exact Hs|]. split; [exact He|].
  rewrite Hs, <- (length_map e_name), He, length_map.
  clear. induction doc as [|p rest IH]; simpl; [reflexivity|].
  destruct (is_skipped p); simpl; lia.
Qed.

(** X14.  After a run that does not raise, the operator was asked exactly
    about the accepted full pages, once each and in page order; name-only
    and skipped pages cause no prompt. *)
Theorem run_prompts_full_pages (doc : list page) (st : state) :
  run operator initial_state doc = Ok st ->
  asked st = map (fun p => fmt (name_in_use p)) (filter is_prompted doc)
  /\ List.length (asked st) <= List.length (entries st).
Proof.
  intros H. destruct (run_accounts doc _ _ H) as [_ [He Ha]].
  simpl in He, Ha. split; [exact Ha|].
  rewrite Ha, <- (length_map e_name), He, !length_map.
  clear. induction doc as [|p rest IH]; simpl; [lia|].
  unfold is_prompted at 1.
  destruct (is_skipped p); simpl; [exact IH|].
  destruct (truthy (get_form_field p "PName_")); simpl; lia.
Qed.

(** X15.  The files a run has written are exactly the three artifacts of
    each stored record, in record order: the split document, the display
    image and the print image; a skipped page adds none. *)
Theorem run_files_are_artifacts (doc : list page) (st : state) :
  run operator initial_state doc = Ok st ->
  files st = flat_map artifacts_of (entries st)
  /\ List.length (files st) = 3 * List.length (entries st).
Proof.
  intros H.
  assert (Hf : files st = flat_map artifacts_of (entries st)).
  { revert H.
    apply (run_invariant operator (fun s => files s = flat_map artifacts_of (entries s)));
      [|reflexivity].
    intros s p s' Hs Hp.
    destruct (process_page_inv operator s p s' Hp) as [[Hk He]|[Hk [z [_ ->]]]].
    - rewrite (process_page_skip operator s p Hk) in Hp. injection Hp as <-.
      simpl. exact Hs.
    - unfold accepted_state. cbn [files entries].
      rewrite flat_map_app, Hs. reflexivity. }
  split; [exact Hf|]. rewrite Hf.
  generalize (entries st). clear. intros l.
  induction l as [|e l IH]; simpl; [reflexivity|]. rewrite IH. lia.
Qed.

(** X16.  Every record a run stores has a school that is not empty: an
    absent or empty school is stored as [Unknown]. *)
Theorem stored_school_not_empty (doc : list page) (st : state) :
  run operator initial_state doc = Ok st ->
  Forall (fun e => e_school e <> EmptyString) (entries st).
Proof.
  apply (run_preserves operator (fun e => e_school e <> EmptyString)).
  - intros s p z _. eexists. split; [reflexivity|].
    cbn [e_school]. apply str_or_nonempty. discriminate.
  - constructor.
Qed.

(** X17.  A document whose pages are all skipped never raises, whatever
    their [Level_] fields hold: no record is stored, no file is written, the
    operator is not asked, the appender is not called and the skip counter
    is the number of pages. *)
Theorem all_pages_skipped (doc : list page) (file : option string) :
  (forall p, In p doc -> is_skipped p = true) ->
  exists st,
    main operator doc file = Ok (st, None)
    /\ entries st = [] /\ files st = [] /\ asked st = []
    /\ skipped st = List.length doc.
Proof.
  intros H.
  assert (G : forall st, entries st = [] ->
            exists st', run operator st doc = Ok st'
              /\ entries st' = [] /\ files st' = files st /\ asked st' = asked st
              /\ skipped st' = skipped st + List.length doc).
  { induction doc as [|p rest IH]; intros st Hst.
    - exists st. simpl. repeat split; auto.
    - simpl. rewrite (process_page_skip operator st p (H p (or_introl eq_refl))).
      simpl.
      destruct (IH (fun q Hq => H q (or_intror Hq))
                  {| entries := entries st; skipped := S (skipped st);
                     level := of_field (get_form_field p "Level_");
                     school := get_form_field p "School_";
                     classes := classes st; files := files st;
                     asked := asked st |} Hst)
        as [st' [Hr [He [Hf [Ha Hs]]]]].
      exists st'. simpl in Hf, Ha, Hs. repeat split; auto. lia. }
  destruct (G initial_state eq_refl) as [st [Hr [He [Hf [Ha Hs]]]]].
  exists st. unfold main. rewrite Hr. simpl. rewrite He.
  repeat split; auto.
Qed.


End PageLoopAccounts.

Lemma run_counts_pages_witness :
  exists st,
    run wizard_operator initial_state [page_blank; page_magic_missile; page_light]
      = Ok st
    /\ skipped st = 1
    /\ map e_name (entries st) = [Some "Magic Missile"; Some "Light"]
    /\ List.length (entries st) + skipped st = 3.
Proof.
  eexists. split; [vm_compute; reflexivity|].
  apply (run_counts_pages wizard_operator
           [page_blank; page_magic_missile; page_light]).
  vm_compute. reflexivity.
Defined.

Lemma run_prompts_full_pages_witness :
  exists st,
    run wizard_operator initial_state [page_blank; page_magic_missile; page_light]
      = Ok st
    /\ asked st = ["Magic Missile"]
    /\ List.length (asked st) <= List.length (entries st).
Proof.
  eexists. split; [vm_compute; reflexivity|].
  apply (run_prompts_full_pages wizard_operator
           [page_blank; page_magic_missile; page_light]).
  vm_compute. reflexivity.
Defined.

Lemma run_files_are_artifacts_witness :
  run wizard_operator initial_state [page_magic_missile; page_light]
    = Ok state_after_light
  /\ files state_after_light = flat_map artifacts_of (entries state_after_light)
  /\ List.length (files state_after_light)
     = 3 * List.length (entries state_after_light).
Proof.
  split; [vm_compute; reflexivity|].
  apply (run_files_are_artifacts wizard_operator [page_magic_missile; page_light]).
  vm_compute. reflexivity.
Defined.

Lemma stored_school_not_empty_witness :
  run wizard_operator initial_state [page_magic_missile; page_light]
    = Ok state_after_light
  /\ Forall (fun e => e_school e <> EmptyString) (entries state_after_light).
Proof.
  split; [vm_compute; reflexivity|].
  apply (stored_school_not_empty wizard_operator [page_magic_missile; page_light]).
  vm_compute. reflexivity.
Defined.

Lemma all_pages_skipped_witness :
  is_skipped page_blank = true /\ is_skipped page_blank_level5 = true
  /\ exists st,
       main wizard_operator [page_blank; page_blank_level5] (Some empty_collection)
         = Ok (st, None)
       /\ entries st = [] /\ files st = [] /\ asked st = []
       /\ skipped st = 2.
Proof.
  split; [reflexivity|]. split; [reflexivity|].
  apply (all_pages_skipped wizard_operator [page_blank; page_blank_level5]
           (Some empty_collection)).
  intros p [<-|[<-|[]]]; reflexivity.
Defined.

(** ** The menu and the whole script *)

(** X21.  The menu and the selection agree: for every position k from 1 to
    13, the k-th item of the menu shows k in brackets followed by a class,
    and typing k selects that class and no other. *)
Theorem menu_matches_selection (k : Z) :
  (1 <= k <= 13)%Z ->
  exists c,
    nth (Z.to_nat (k - 1)) (menu_items 0 CLASSES) EmptyString
      = "[" ++ PyStr.str_of_int k ++ "]" ++ c
    /\ ask_classes (PyStr.str_of_int k) = [c].
Proof.
  intros Hk.
  assert (H : (k = 1 \/ k = 2 \/ k = 3 \/ k = 4 \/ k = 5 \/ k = 6 \/ k = 7
               \/ k = 8 \/ k = 9 \/ k = 10 \/ k = 11 \/ k = 12 \/ k = 13)%Z)
    by lia.
  repeat (destruct H as [->|H]; [eexists; split; vm_compute; reflexivity|]).
  subst k. eexists; split; vm_compute; reflexivity.
Qed.

Lemma menu_matches_selection_witness :
  exists c,
    nth (Z.to_nat (12 - 1)) (menu_items 0 CLASSES) EmptyString
      = "[" ++ PyStr.str_of_int 12 ++ "]" ++ c
    /\ ask_classes (PyStr.str_of_int 12) = [c].
Proof. apply (menu_matches_selection 12). lia. Defined.

Example class_menu_text :
  CLASS_MENU =
  "[1]Barbarian  [2]Bard  [3]Cleric  [4]Druid  [5]Fighter  [6]Monk  [7]Paladin  [8]Ranger  [9]Rogue  [10]Sorcerer  [11]Warlock  [12]Wizard  [13]Artificer".
Proof. reflexivity. Qed.


(** ** The levels that reach the collection *)

Section StoredLevels.

Local Open Scope list_scope.
Local Open Scope Z_scope.

Lemma count_digits_cons c l :
  count_digits (c :: l)
  = (if PyStr.is_digit c then 1 else 0) + count_digits l.
Proof.
  unfold count_digits. cbn [filter].
  destruct (PyStr.is_digit c); cbn [List.length]; lia.
Qed.

Lemma count_digits_nonneg l : 0 <= count_digits l.
Proof. unfold count_digits. lia. Qed.

(** The value read from a numeral is below the power of ten its number of
    digits gives. *)
Lemma scan_digits_upper l :
  forall pos acc z,
    0 <= acc -> scan_digits pos acc l = Some z ->
    0 <= z < (acc + 1) * 10 ^ count_digits l.
Proof.
  induction l as [|c l IH]; intros pos acc z Hacc H; cbn [scan_digits] in H.
  - destruct pos; try discriminate. injection H as <-.
    change (count_digits []) with 0. lia.
  - rewrite count_digits_cons.
    pose proof (count_digits_nonneg l) as Hn.
    assert (Hp : 0 < 10 ^ count_digits l) by (apply Z.pow_pos_nonneg; lia).
    destruct (PyStr.is_digit c) eqn:Hc.
    + pose proof (digit_value_range c Hc) as Hd.
      specialize (IH AfterDigit (10 * acc + digit_value c) z ltac:(lia) H).
      rewrite Z.pow_add_r, Z.pow_1_r by lia. nia.
    + destruct (Ascii.eqb c "_"%char); [|discriminate].
      destruct pos; try discriminate.
      rewrite Z.add_0_l. exact (IH AfterUnderscore acc z Hacc H).
Qed.

Lemma int_body_upper body z :
  int_body body = Some z -> Z.abs z < 10 ^ count_digits body.
Proof.
  unfold int_body. destruct body as [|c r]; [discriminate|].
  assert (Hle : 10 ^ count_digits r <= 10 ^ count_digits (c :: r)).
  { apply Z.pow_le_mono_r; [lia|]. rewrite count_digits_cons.
    destruct (PyStr.is_digit c); lia. }
  destruct (Ascii.eqb c "+"%char).
  { intros H. pose proof (scan_digits_upper r AtStart 0 z ltac:(lia) H). lia. }
  destruct (Ascii.eqb c "-"%char).
  { destruct (scan_digits AtStart 0 r) as [z'|] eqn:E; [|discriminate].
    intros H. injection H as <-.
    pose proof (scan_digits_upper r AtStart 0 z' ltac:(lia) E). lia. }
  intros H. pose proof (scan_digits_upper (c :: r) AtStart 0 z ltac:(lia) H). lia.
Qed.

(** What [int] reads from text is an integer [str] prints. *)
Lemma int_of_str_printable s z : int_of_str s = Some z -> printable z.
Proof.
  unfold int_of_str, int_of_chars, printable. cbv zeta.
  destruct (int_max_str_digits <? count_digits (int_strip (list_ascii_of_string s)))
    eqn:E; [discriminate|].
  apply Z.ltb_ge in E. intros H. apply int_body_upper in H.
  eapply Z.lt_le_trans; [exact H|]. apply Z.pow_le_mono_r; lia.
Qed.

Lemma printable_zero : printable 0.
Proof. unfold printable. apply Z.pow_pos_nonneg; [lia|discriminate]. Qed.

End StoredLevels.

Section ScriptAccounts.

Variable answers : nat -> option string.
Variable can_save : nat -> string -> bool.

Lemma py_int_printable v z :
  py_int v = Ok z -> (forall z', v = VInt z' -> printable z') -> printable z.
Proof.
  destruct v as [|z'|s]; simpl; [discriminate| |].
  - intros H Hv. injection H as <-. apply Hv. reflexivity.
  - intros H _. destruct (int_of_str s) as [z'|] eqn:E; [|discriminate].
    injection H as <-. exact (int_of_str_printable s z' E).
Qed.

Lemma process_page_levels operator st p st' :
  levels_printable st -> process_page operator st p = Ok st' ->
  levels_printable st'.
Proof.
  intros [He Hl] Hp.
  destruct (process_page_inv operator st p st' Hp) as [[Hk _]|[Hk [z [Hz ->]]]].
  - rewrite (process_page_skip operator st p Hk) in Hp. injection Hp as <-.
    split; [exact He|]. cbn [level]. intros z Hz.
    destruct (get_form_field p "Level_"); discriminate.
  - assert (Hpz : printable z).
    { apply (py_int_printable _ z Hz). unfold level_to_coerce.
      destruct (truthy (get_form_field p "PName_")); [exact Hl|].
      intros z' Hz'. destruct (get_form_field p "Level_"); discriminate. }
    unfold accepted_state. split; cbn [entries level].
    + apply Forall_app. split; [exact He|]. constructor; [exact Hpz|constructor].
    + intros z' Hz'. injection Hz' as <-. exact Hpz.
Qed.

Lemma run_levels_printable doc st :
  run_fs answers can_save initial_state doc = Ok st -> levels_printable st.
Proof.
  intros H. apply run_fs_refines in H. revert H.
  apply (run_invariant (operator_of answers) levels_printable).
  - intros s p s' Hs Hp. exact (process_page_levels _ s p s' Hs Hp).
  - split; [constructor|]. cbn [level initial_state].
    intros z Hz. injection Hz as <-. exact printable_zero.
Qed.

Lemma name_only_page_fs st q v z :
  get_form_field q "PName_" = Some v -> v <> EmptyString ->
  level st = VInt z ->
  process_page_fs answers can_save st q =
  if artifacts_saved can_save (List.length (files st)) (Some v)
  then Ok (accepted_state (operator_of answers) st q z)
  else Raise SaveError.
Proof.
  intros Hq Hv Hl.
  assert (Hqt : truthy (get_form_field q "PName_") = true).
  { rewrite Hq. apply truthy_nonempty. exact Hv. }
  assert (Hqs : is_skipped q = false).
  { unfold is_skipped. rewrite Hqt, orb_true_r. reflexivity. }
  rewrite (process_page_fs_accept answers can_save st q Hqs).
  unfold level_to_coerce, name_in_use. rewrite Hqt, Hq, Hl. cbn [py_int bind].
  destruct (artifacts_saved can_save (List.length (files st)) (Some v));
    reflexivity.
Qed.


(** X19.  A name-only page that comes before any page with school and
    level fields raises only when one of its three artifacts cannot be
    saved; otherwise it is stored with level 0, school [Unknown] and no
    classes, its three files are written, and the operator is not asked. *)
Theorem name_only_first_page (p : page) (v : string) :
  get_form_field p "PName_" = Some v -> v <> EmptyString ->
  (artifacts_saved can_save 0 (Some v) = false ->
   process_page_fs answers can_save initial_state p = Raise SaveError)
  /\ (artifacts_saved can_save 0 (Some v) = true ->
      process_page_fs answers can_save initial_state p =
      Ok {| entries :=
              [ {| e_name := Some v; e_level := 0; e_school := "Unknown";
                   e_classes := [];
                   e_image := (IMAGES_DIR ++ "/" ++ v ++ ".webp")%string;
                   e_pdf := (SPELLS_PDF_DIR ++ "/" ++ v ++ ".pdf")%string |} ];
            skipped := 0; level := VInt 0; school := Some "Unknown";
            classes := [];
            files := [ (SPELLS_PDF_DIR ++ "/" ++ v ++ ".pdf")%string;
                       (IMAGES_DIR ++ "/" ++ v ++ ".webp")%string;
                       (HIRES_DIR ++ "/" ++ v ++ ".png")%string ];
            asked := [] |}).
Proof.
  intros Hq Hv.
  assert (Hqt : truthy (get_form_field p "PName_") = true).
  { rewrite Hq. apply truthy_nonempty. exact Hv. }
  rewrite (name_only_page_fs initial_state p v 0 Hq Hv eq_refl).
  change (List.length (files initial_state)) with 0.
  split; intros ->; [reflexivity|].
  unfold accepted_state, name_in_use, school_in_use.
  rewrite Hqt, Hq. reflexivity.
Qed.

(** X22.  From the first page to the file: when [data/spells.js] does not
    exist and a run stores at least one record without raising, the script
    writes the empty collection and then the collection that holds, between
    its opening line and the marker, the text of each stored record
    followed by a line break, the records being those of the pages not
    skipped, in page order; every level in these texts is one [str]
    prints. *)
Theorem main_creates_collection (doc : list page) (st : state) :
  run_fs answers can_save initial_state doc = Ok st -> entries st <> [] ->
  main_fs answers can_save doc None =
  Ok (st,
      Some {| writes :=
                [ empty_collection;
                  "const SPELLS = [" ++ newline
                  ++ String.concat EmptyString
                       (map (fun e => js_line e ++ newline) (entries st))
                  ++ "];" ++ newline ];
              printed := [NotFoundCreating; Added (List.length (entries st))] |})
  /\ Forall (fun e => printable (e_level e)) (entries st)
  /\ map e_name (entries st)
     = map name_in_use (filter (fun p => negb (is_skipped p)) doc).
Proof.
  intros Hrun Hne. split; [|split].
  - unfold main_fs. rewrite Hrun. cbn [bind].
    rewrite append_to_absent, (insert_text_lines _ Hne).
    destruct (entries st); [contradiction|reflexivity].
  - exact (proj1 (run_levels_printable doc st Hrun)).
  - apply run_fs_refines in Hrun.
    destruct (run_accounts _ doc _ _ Hrun) as [_ [He _]]. exact He.
Qed.


(** X24.  Every level a run stores is an integer [str] prints, one of at
    most 4300 digits, so building the text of the records never raises. *)
Theorem stored_levels_printable (doc : list page) (st : state) :
  run_fs answers can_save initial_state doc = Ok st ->
  Forall (fun e => printable (e_level e)) (entries st).
Proof.
  intros H. exact (proj1 (run_levels_printable doc st H)).
Qed.

End ScriptAccounts.


Lemma name_only_first_page_witness :
  get_form_field page_light "PName_" = Some "Light"
  /\ artifacts_saved flat_output_dirs 0 (Some "Light") = true
  /\ process_page_fs no_answers flat_output_dirs initial_state page_light =
     Ok {| entries :=
             [ {| e_name := Some "Light"; e_level := 0; e_school := "Unknown";
                  e_classes := [];
                  e_image := "images/Light.webp"; e_pdf := "spells/Light.pdf" |} ];
           skipped := 0; level := VInt 0; school := Some "Unknown"; classes := [];
           files := [ "spells/Light.pdf"; "images/Light.webp";
                      "high_res_images/Light.png" ];
           asked := [] |}.
Proof.
  split; [reflexivity|]. split; [reflexivity|].
  destruct (name_only_first_page no_answers flat_output_dirs page_light "Light"
              eq_refl ltac:(discriminate)) as [_ H].
  exact (H eq_refl).
Defined.

Lemma main_creates_collection_witness :
  run_fs wizard_answers flat_output_dirs initial_state
    [page_blank; page_magic_missile; page_light]
    = Ok {| entries := [record_magic_missile; record_light];
            skipped := 1; level := VInt 1; school := Some "Evocation";
            classes := ["Wizard"];
            files := [ "spells/Magic Missile.pdf"; "images/Magic Missile.webp";
                       "high_res_images/Magic Missile.png";
                       "spells/Light.pdf"; "images/Light.webp";
                       "high_res_images/Light.png" ];
            asked := ["Magic Missile"] |}
  /\ exists st,
       main_fs wizard_answers flat_output_dirs
         [page_blank; page_magic_missile; page_light] None =
       Ok (st,
           Some {| writes :=
                     [ "const SPELLS = [" ++ newline ++ "];" ++ newline;
                       "const SPELLS = [" ++ newline
                       ++ "  { name: " ++ dquote ++ "Magic Missile" ++ dquote
                       ++ ", level: 1, school: " ++ dquote ++ "Evocation" ++ dquote
                       ++ ", classes: [" ++ dquote ++ "Wizard" ++ dquote
                       ++ "], image: " ++ dquote ++ "images/Magic Missile.webp"
                       ++ dquote ++ ", pdf: " ++ dquote
                       ++ "spells/Magic Missile.pdf" ++ dquote ++ " }," ++ newline
                       ++ "  { name: " ++ dquote ++ "Light" ++ dquote
                       ++ ", level: 1, school: " ++ dquote ++ "Evocation" ++ dquote
                       ++ ", classes: [" ++ dquote ++ "Wizard" ++ dquote
                       ++ "], image: " ++ dquote ++ "images/Light.webp" ++ dquote
                       ++ ", pdf: " ++ dquote ++ "spells/Light.pdf" ++ dquote
                       ++ " }," ++ newline
                       ++ "];" ++ newline ];
                   printed := [NotFoundCreating; Added 2] |})
       /\ map e_name (entries st) = [Some "Magic Missile"; Some "Light"].
Proof.
  split; [vm_compute; reflexivity|].
  eexists.
  destruct (main_creates_collection wizard_answers flat_output_dirs
              [page_blank; page_magic_missile; page_light] _
              ltac:(vm_compute; reflexivity) ltac:(discriminate))
    as [H1 [_ H3]].
  split; [exact H1|exact H3].
Defined.

Lemma stored_levels_printable_witness :
  exists st,
    run_fs wizard_answers all_saved initial_state
      [page_with_level "-007"; page_light] = Ok st
    /\ map e_level (entries st) = [(-7)%Z; (-7)%Z]
    /\ Forall (fun e => printable (e_level e)) (entries st).
Proof.
  eexists. split; [vm_compute; reflexivity|]. split; [reflexivity|].
  apply (stored_levels_printable wizard_answers all_saved
           [page_with_level "-007"; page_light]).
  vm_compute. reflexivity.
Defined.
